(** * runtime/debug: the build-information text codec

    A shallow embedding of [src/runtime/debug/mod.go]: the records
    [BuildInfo] and [Module], the encoder [MarshalText], the decoder
    [UnmarshalText] and the framing gate [ReadBuildInfo], followed by the
    properties of the codec.

    Go strings and byte slices are byte sequences; both are modelled by
    [string] (a list of 8-bit [ascii] characters).  Pointers to modules are
    modelled by the place they point to: the decoder's [last] is either the
    main module or an index into the dependency slice. *)

From Stdlib Require Import Ascii String.
From stdpp Require Import base tactics option list strings.

(** ** The parts of Go's [bytes] package that the codec calls *)

Module bytes.

(** [s[:n]] and [s[n:]].  Go panics on an index beyond [len(s)]; every
    use below keeps [n] within bounds. *)
Fixpoint take (n : nat) (s : string) : string :=
  match n, s with
  | S n', String c s' => String c (take n' s')
  | _, _ => EmptyString
  end.

Fixpoint drop (n : nat) (s : string) : string :=
  match n, s with
  | S n', String _ s' => drop n' s'
  | _, _ => s
  end.

(** [s[a:b]] *)
Definition slice (a b : nat) (s : string) : string := take (b - a) (drop a s).

(** [bytes.HasPrefix(s, prefix)] *)
Fixpoint HasPrefix (s prefix : string) {struct prefix} : bool :=
  match prefix, s with
  | EmptyString, _ => true
  | String p prefix', String c s' =>
      if Ascii.eqb c p then HasPrefix s' prefix' else false
  | String _ _, EmptyString => false
  end.

(** [bytes.Index(s, sep)]: the offset of the first instance of [sep] in
    [s]; Go's [-1] is [None]. *)
Fixpoint Index (s sep : string) : option nat :=
  if HasPrefix s sep then Some 0
  else match s with
       | EmptyString => None
       | String _ s' => S <$> Index s' sep
       end.

(** [bytes.Cut(s, sep)]: [(before, after, found)]; when [sep] does not
    occur the result is [(s, nil, false)]. *)
Definition Cut (s sep : string) : string * string * bool :=
  match Index s sep with
  | Some i => (take i s, drop (i + String.length sep) s, true)
  | None => (s, EmptyString, false)
  end.

(** The loop of [genSplit]: at most [n] cuts, the remainder is the last
    element. *)
Fixpoint genSplit (n : nat) (s sep : string) : list string :=
  match n with
  | 0 => [s]
  | S n' =>
      match Index s sep with
      | None => [s]
      | Some m => take m s :: genSplit n' (drop (m + String.length sep) s) sep
      end
  end.

(** [bytes.Split(s, sep)] for a non-empty [sep].  Go bounds the loop by
    [Count(s, sep)]; the loop also stops at the first failed [Index], so
    the bound [len(s)], which is never below the count, yields the same
    slice. *)
Definition Split (s sep : string) : list string :=
  genSplit (String.length s) s sep.

End bytes.

(** ** Data model *)

(** [type Module struct]; [Replace *Module] is [None] for [nil]. *)
#[warnings="-register-all"] Inductive Module_ : Type :=
  mkModule {
    Path : string;
    Version : string;
    Sum : string;
    Replace : option Module_
  }.

(** [type BuildInfo struct]; the elements of [Deps []*Module] are never
    [nil] in a value the decoder builds, and [MarshalText] dereferences
    each of them, so the slice is modelled by the list of the modules
    pointed to. *)
Record BuildInfo : Type :=
  mkBuildInfo {
    bi_Path : string;
    bi_Main : Module_;
    bi_Deps : list Module_
  }.

(** [Module{}] and [BuildInfo{}] *)
Definition zeroModule : Module_ := mkModule "" "" "" None.
Definition zeroBuildInfo : BuildInfo := mkBuildInfo "" zeroModule [].

(** The errors [UnmarshalText] creates with [fmt.Errorf], by message:
    - [ErrModColumns n]: "expected 2 or 3 columns; got n"
    - [ErrReplColumns n]: "expected 3 columns for replacement; got n"
    - [ErrNoModule]: "replacement with no module on previous line" *)
Inductive cause : Type :=
  | ErrModColumns (n : nat)
  | ErrReplColumns (n : nat)
  | ErrNoModule.

(** The deferred wrapper: "could not parse Go build info: line N: cause". *)
Record FormatError : Type :=
  mkFormatError { err_line : nat; err_cause : cause }.

(** ** Byte constants *)

Definition TAB : string := String "009" EmptyString.
Definition NL : string := String "010" EmptyString.

Definition pathLine : string := "path" +:+ TAB.
Definition modLine : string := "mod" +:+ TAB.
Definition depLine : string := "dep" +:+ TAB.
Definition repLine : string := "=>" +:+ TAB.
Definition newline : string := NL.
Definition tab : string := TAB.

(** ** Encoder *)

(** [bytes.Buffer]: the bytes written so far. *)
Definition WriteString (buf s : string) : string := buf +:+ s.
Definition WriteByte (buf : string) (c : ascii) : string :=
  buf +:+ String c EmptyString.

(** The closure [formatMod] of [MarshalText], with the buffer it writes to
    passed in and returned. *)
Fixpoint formatMod (word : string) (m : Module_) (buf : string) : string :=
  let buf := WriteString buf word in
  let buf := WriteByte buf "009" in
  let buf := WriteString buf (Path m) in
  let mv := Version m in
  let mv := if String.eqb mv "" then "(devel)" else mv in
  let buf := WriteByte buf "009" in
  let buf := WriteString buf mv in
  let buf :=
    match Replace m with
    | None =>
        let buf := WriteByte buf "009" in
        WriteString buf (Sum m)
    | Some r =>
        let buf := WriteByte buf "010" in
        formatMod "=>" r buf
    end in
  WriteByte buf "010".

(** [func (bi *BuildInfo) MarshalText() ([]byte, error)] *)
Definition MarshalText (bi : BuildInfo) : string * option FormatError :=
  let buf := EmptyString in
  let buf :=
    if negb (String.eqb (bi_Path bi) "")
    then WriteString (WriteString (WriteString buf pathLine) (bi_Path bi)) NL
    else buf in
  let buf :=
    if negb (String.eqb (Path (bi_Main bi)) "")
    then formatMod "mod" (bi_Main bi) buf
    else buf in
  let buf := fold_left (fun buf dep => formatMod "dep" dep buf) (bi_Deps bi) buf in
  (buf, None).

(** ** Decoder *)

(** What the pointer [last] points to: [&bi.Main], or the module allocated
    for the dependency at index [i] of [bi.Deps]. *)
Inductive target : Type :=
  | TMain
  | TDep (i : nat).

(** The variables of the scanning loop.  [lineNum] is a Go [int]; it is
    at most one more than the number of newlines of the input, so it does
    not wrap, and is a [nat] here. *)
Record state : Type :=
  mkState {
    st_bi : BuildInfo;
    st_last : option target;
    st_lineNum : nat
  }.

(** [*p = m] *)
Definition assign (p : target) (m : Module_) (bi : BuildInfo) : BuildInfo :=
  match p with
  | TMain => mkBuildInfo (bi_Path bi) m (bi_Deps bi)
  | TDep i => mkBuildInfo (bi_Path bi) (bi_Main bi) (<[i:=m]> (bi_Deps bi))
  end.

(** [p.Replace = &r] *)
Definition setReplace (r : Module_) (m : Module_) : Module_ :=
  mkModule (Path m) (Version m) (Sum m) (Some r).

Definition assignReplace (p : target) (r : Module_) (bi : BuildInfo) : BuildInfo :=
  match p with
  | TMain => mkBuildInfo (bi_Path bi) (setReplace r (bi_Main bi)) (bi_Deps bi)
  | TDep i => mkBuildInfo (bi_Path bi) (bi_Main bi) (alter (setReplace r) i (bi_Deps bi))
  end.

(** [string(elem[i])]; the callers index only below [len(elem)]. *)
Definition col (elem : list string) (i : nat) : string := nth i elem EmptyString.

(** The closure [readModuleLine]. *)
Definition readModuleLine (elem : list string) : Module_ * option cause :=
  if negb (length elem =? 2) && negb (length elem =? 3)
  then (zeroModule, Some (ErrModColumns (length elem)))
  else
    let sum := if length elem =? 3 then col elem 2 else EmptyString in
    (mkModule (col elem 0) (col elem 1) sum None, None).

(** The [switch] on one line.  The result is the state after the case and
    the error the case returns with, if any. *)
Definition doLine (line : string) (st : state) : state * option cause :=
  let bi := st_bi st in
  if bytes.HasPrefix line pathLine then
    let elem := bytes.drop (String.length pathLine) line in
    (mkState (mkBuildInfo elem (bi_Main bi) (bi_Deps bi)) (st_last st) (st_lineNum st), None)
  else if bytes.HasPrefix line modLine then
    let elem := bytes.Split (bytes.drop (String.length modLine) line) tab in
    let last := TMain in
    let '(m, err) := readModuleLine elem in
    (mkState (assign last m bi) (Some last) (st_lineNum st), err)
  else if bytes.HasPrefix line depLine then
    let elem := bytes.Split (bytes.drop (String.length depLine) line) tab in
    let last := TDep (length (bi_Deps bi)) in
    let bi := mkBuildInfo (bi_Path bi) (bi_Main bi) (bi_Deps bi ++ [zeroModule]) in
    let '(m, err) := readModuleLine elem in
    (mkState (assign last m bi) (Some last) (st_lineNum st), err)
  else if bytes.HasPrefix line repLine then
    let elem := bytes.Split (bytes.drop (String.length repLine) line) tab in
    if negb (length elem =? 3) then (st, Some (ErrReplColumns (length elem)))
    else
      match st_last st with
      | None => (st, Some ErrNoModule)
      | Some last =>
          let r := mkModule (col elem 0) (col elem 1) (col elem 2) None in
          (mkState (assignReplace last r bi) None (st_lineNum st), None)
      end
  else (st, None).

(** The [for len(data) > 0] loop.  Every iteration that does not leave the
    loop removes at least the newline from [data], so [len(data)]
    iterations are enough; [fuel] counts them down. *)
Fixpoint scanLoop (fuel : nat) (data : string) (st : state) : state * option cause :=
  match fuel with
  | 0 => (st, None)
  | S fuel' =>
      if String.length data =? 0 then (st, None)
      else
        let '(line, data', ok) := bytes.Cut data newline in
        if negb ok then (st, None)
        else
          match doLine line st with
          | (st', Some e) => (st', Some e)
          | (st', None) =>
              scanLoop fuel' data'
                (mkState (st_bi st') (st_last st') (S (st_lineNum st')))
          end
  end.

(** The loop run from the state [UnmarshalText] sets up: [*bi] zeroed,
    [lineNum := 1], [last] nil. *)
Definition initState : state := mkState zeroBuildInfo None 1.

Definition scan (data : string) : state * option cause :=
  scanLoop (String.length data) data initState.

(** [func (bi *BuildInfo) UnmarshalText(data []byte) (err error)]: the
    receiver's contents on entry are [bi]; the result is the receiver's
    contents on return and the error, wrapped with the line number by the
    deferred function. *)
Definition UnmarshalText (bi : BuildInfo) (data : string)
  : BuildInfo * option FormatError :=
  let bi := zeroBuildInfo in
  let '(st, err) := scanLoop (String.length data) data (mkState bi None 1) in
  (st_bi st, mkFormatError (st_lineNum st) <$> err).

(** [func ReadBuildInfo() (info *BuildInfo, ok bool)], with the string
    [modinfo()] returns as parameter; [(nil, false)] is [None]. *)
Definition ReadBuildInfo (modinfo : string) : option BuildInfo :=
  let data := modinfo in
  if String.length data <? 32 then None
  else
    let data := bytes.slice 16 (String.length data - 16) data in
    match UnmarshalText zeroBuildInfo data with
    | (_, Some _) => None
    | (bi, None) => Some bi
    end.

(** ** Lines *)

(** [hasByte c s]: the byte [c] occurs in [s]. *)
Fixpoint hasByte (c : ascii) (s : string) : bool :=
  match s with
  | EmptyString => false
  | String x s' => if Ascii.eqb x c then true else hasByte c s'
  end.

(** A string that fits on one line, and one that fits in one column. *)
Definition oneLine (s : string) : bool := negb (hasByte "010" s).
Definition oneColumn (s : string) : bool :=
  negb (hasByte "009" s) && negb (hasByte "010" s).

(** The text made of the lines [ls], each one terminated by a newline. *)
Fixpoint unlines (ls : list string) : string :=
  match ls with
  | [] => EmptyString
  | l :: ls' => l +:+ NL +:+ unlines ls'
  end.

(** What the loop body does to the state between two lines. *)
Definition nextLine (st : state) : state :=
  mkState (st_bi st) (st_last st) (S (st_lineNum st)).

(** The loop of [UnmarshalText] over lines already cut. *)
Fixpoint runLines (ls : list string) (st : state) : state * option cause :=
  match ls with
  | [] => (st, None)
  | l :: ls' =>
      match doLine l st with
      | (st', Some e) => (st', Some e)
      | (st', None) => runLines ls' (nextLine st')
      end
  end.

(** ** Lines of a text *)

(** The complete lines of [data] and the unterminated fragment after the
    last newline. *)
Fixpoint linesOf (data : string) : list string * string :=
  match data with
  | EmptyString => ([], EmptyString)
  | String c data' =>
      let '(ls, frag) := linesOf data' in
      if Ascii.eqb c "010" then (EmptyString :: ls, frag)
      else match ls with
           | [] => ([], String c frag)
           | l :: ls' => (String c l :: ls', frag)
           end
  end.

(** ** Lines of the format *)

(** The module a [mod] or [dep] line stands for, and the one a [=>] line
    stands for, as the [switch] builds them. *)
Definition columns (prefix line : string) : list string :=
  bytes.Split (bytes.drop (String.length prefix) line) tab.

Definition moduleOfLine (line : string) : Module_ :=
  (readModuleLine (columns modLine line)).1.

Definition replacementOfLine (line : string) : Module_ :=
  let elem := columns repLine line in
  mkModule (col elem 0) (col elem 1) (col elem 2) None.

(** A line the [switch] does nothing with, or a [path] line: neither
    touches a module nor [last]. *)
Definition passive (line : string) : bool :=
  negb (bytes.HasPrefix line modLine) && negb (bytes.HasPrefix line depLine)
  && negb (bytes.HasPrefix line repLine).

Definition withPath (p : string) (bi : BuildInfo) : BuildInfo :=
  mkBuildInfo p (bi_Main bi) (bi_Deps bi).


(** ** Sample texts *)

Definition ex_mod_A : string := "mod" +:+ TAB +:+ "A" +:+ TAB +:+ "v1".
Definition ex_rep_B : string := "=>" +:+ TAB +:+ "B".
Definition ex_rep_A : string :=
  "=>" +:+ TAB +:+ "A" +:+ TAB +:+ "v1" +:+ TAB +:+ "sum".
Definition ex_dep_X : string :=
  "dep" +:+ TAB +:+ "X" +:+ TAB +:+ "v2" +:+ TAB +:+ "h1:x".
Definition ex_frame : string := "0123456789abcdef".
Definition ex_passive : list string :=
  [""; "path" +:+ TAB +:+ "cmd/x"; "build" +:+ TAB +:+ "-race"].

(** ** Shapes of decoded values *)

(** A module whose replacement, if any, has no replacement of its own. *)
Definition shallow (m : Module_) : Prop :=
  ∀ r, Replace m = Some r → Replace r = None.

Definition flat (bi : BuildInfo) : Prop :=
  shallow (bi_Main bi) ∧ Forall shallow (bi_Deps bi).


(** The case [bytes.HasPrefix(line, depLine)] of the [switch]; the two
    cases before it start with other bytes. *)
Definition isDepLine (line : string) : bool := bytes.HasPrefix line depLine.

(** The string fields of a module. *)
Definition fields (m : Module_) : string * string * string :=
  (Path m, Version m, Sum m).

(** ** The encoding, line by line, and what decoding makes of it *)

(** The version column [formatMod] writes for the version [v]. *)
Definition devel (v : string) : string :=
  if String.eqb v "" then "(devel)" else v.

(** The lines [formatMod word m] writes: one line for a module without
    replacement; for a replaced module its line without checksum, the
    lines of the replacement, and the empty line that the last
    [WriteByte] of the outer call leaves. *)
Fixpoint modLines (word : string) (m : Module_) : list string :=
  match Replace m with
  | None =>
      [word +:+ TAB +:+ Path m +:+ TAB +:+ devel (Version m) +:+ TAB +:+ Sum m]
  | Some r =>
      (word +:+ TAB +:+ Path m +:+ TAB +:+ devel (Version m))
        :: modLines "=>" r ++ [""]
  end.

(** The lines [MarshalText] writes. *)
Definition encLines (x : BuildInfo) : list string :=
  (if negb (String.eqb (bi_Path x) "") then [pathLine +:+ bi_Path x] else [])
  ++ (if negb (String.eqb (Path (bi_Main x)) "")
      then modLines "mod" (bi_Main x) else [])
  ++ flat_map (modLines "dep") (bi_Deps x).

(** A [BuildInfo] whose encoding has the lines of the format: no newline
    in the main path; no tab or newline in the columns written for the
    main module (which is written only when its path is not empty) and for
    the dependencies; no replacement of a replacement. *)
Definition encodableRepl (r : Module_) : bool :=
  oneColumn (Path r) && oneColumn (Version r) && oneColumn (Sum r)
  && match Replace r with None => true | Some _ => false end.

Definition encodableMod (m : Module_) : bool :=
  oneColumn (Path m) && oneColumn (Version m)
  && match Replace m with
     | None => oneColumn (Sum m)
     | Some r => encodableRepl r
     end.

Definition encodable (x : BuildInfo) : bool :=
  oneLine (bi_Path x)
  && (String.eqb (Path (bi_Main x)) "" || encodableMod (bi_Main x))
  && forallb encodableMod (bi_Deps x).

(** The value the decoder builds from the encoding of an encodable
    [BuildInfo]: every written version is the version column, the
    checksum of a replaced module is not written, and a main module
    without path is not written at all. *)
Definition canonRepl (r : Module_) : Module_ :=
  mkModule (Path r) (devel (Version r)) (Sum r) None.

Definition canonMod (m : Module_) : Module_ :=
  match Replace m with
  | None => mkModule (Path m) (devel (Version m)) (Sum m) None
  | Some r => mkModule (Path m) (devel (Version m)) "" (Some (canonRepl r))
  end.

Definition canon (x : BuildInfo) : BuildInfo :=
  mkBuildInfo (bi_Path x)
    (if String.eqb (Path (bi_Main x)) "" then zeroModule else canonMod (bi_Main x))
    (canonMod <$> bi_Deps x).

(** The modules and values that the encoding stores as they are: versions
    not empty, no checksum on a replaced module, and a main module that
    is the zero module when it has no path. *)
Definition exactMod (m : Module_) : bool :=
  negb (String.eqb (Version m) "")
  && match Replace m with
     | None => true
     | Some r => String.eqb (Sum m) "" && negb (String.eqb (Version r) "")
     end.

Definition absentMod (m : Module_) : bool :=
  String.eqb (Path m) "" && String.eqb (Version m) "" && String.eqb (Sum m) ""
  && match Replace m with None => true | Some _ => false end.

Definition exact (x : BuildInfo) : bool :=
  (if String.eqb (Path (bi_Main x)) "" then absentMod (bi_Main x)
   else exactMod (bi_Main x))
  && forallb exactMod (bi_Deps x).

(** Every version field is set: of the module and, along [Replace], of its
    replacements; of the main module and of every dependency. *)
Fixpoint versionedMod (m : Module_) : bool :=
  negb (String.eqb (Version m) "")
  && match Replace m with
     | None => true
     | Some r => versionedMod r
     end.

Definition versioned (x : BuildInfo) : bool :=
  versionedMod (bi_Main x) && forallb versionedMod (bi_Deps x).

(** ** Sample values *)

Definition ex_fork : Module_ :=
  mkModule "example.com/fork" "v1.0.1" "h1:def" None.

(** A replaced main module that carries a checksum of its own. *)
Definition ex_replaced_sum : BuildInfo :=
  mkBuildInfo "cmd/x" (mkModule "example.com/m" "v1.0.0" "h1:abc" (Some ex_fork)) [].

(** The same without that checksum. *)
Definition ex_replaced : BuildInfo :=
  mkBuildInfo "cmd/x" (mkModule "example.com/m" "v1.0.0" "" (Some ex_fork)) [].

(** No main module, one dependency. *)
Definition ex_no_main : BuildInfo :=
  mkBuildInfo "cmd/x" zeroModule [mkModule "example.com/d" "v1.0.0" "h1:abc" None].

(** A main module with a version and no path. *)
Definition ex_pathless_main : BuildInfo :=
  mkBuildInfo "cmd/x" (mkModule "" "v1.0.0" "" None) [].

(** A tab inside a path. *)
Definition ex_tab_path : BuildInfo :=
  mkBuildInfo "" (mkModule "example.com/m" "v1.0.0" "" None)
    [mkModule ("a" +:+ TAB +:+ "b") "v1.0.0" "h1:abc" None].

(** A replacement that is itself replaced. *)
Definition ex_nested : BuildInfo :=
  mkBuildInfo ""
    (mkModule "example.com/m" "v1.0.0" ""
       (Some (mkModule "example.com/f" "v1.0.1" "" (Some ex_fork)))) [].

(** Two dependencies with one path; the first without version, replaced. *)
Definition ex_d1 : Module_ := mkModule "example.com/d" "v1.0.0" "h1:abc" None.
Definition ex_d2 : Module_ := mkModule "example.com/d" "v1.2.0" "" (Some ex_fork).
Definition ex_d0 : Module_ := mkModule "example.com/d" "" "h1:abc" None.
Definition ex_two_deps : BuildInfo := mkBuildInfo "cmd/x" zeroModule [ex_d1; ex_d2].
Definition ex_two_deps_devel : BuildInfo := mkBuildInfo "cmd/x" zeroModule [ex_d0; ex_d1].
Definition ex_devel : BuildInfo :=
  mkBuildInfo "cmd/x" (mkModule "example.com/m" "" "" None)
    [mkModule "example.com/d" "v1.0.0" "" (Some (mkModule "../d" "" "" None))].
Definition ex_full : BuildInfo :=
  mkBuildInfo "cmd/x" (mkModule "example.com/m" "v1.0.0" "" (Some ex_fork))
    [ex_d1; ex_d2].

(** ** Bytes, columns and lines, counted *)

(** The number of bytes [c] in [s]. *)
Fixpoint countByte (c : ascii) (s : string) : nat :=
  match s with
  | EmptyString => 0
  | String x s' => if Ascii.eqb x c then S (countByte c s') else countByte c s'
  end.

(** [bytes.Join(s, sep)], the inverse of [bytes.Split]. *)
Fixpoint Join (s : list string) (sep : string) : string :=
  match s with
  | [] => EmptyString
  | a :: rest =>
      match rest with
      | [] => a
      | _ :: _ => a +:+ sep +:+ Join rest sep
      end
  end.


(** A line that matches no case of the [switch]. *)
Definition ignoredLine (line : string) : bool :=
  negb (bytes.HasPrefix line pathLine) && passive line.

(** The error [e] of a text, seen from the text with one more line after
    its first [k] lines. *)
Definition laterLine (k : nat) (e : FormatError) : FormatError :=
  if err_line e <=? k then e
  else mkFormatError (S (err_line e)) (err_cause e).

(** The loop variables with [lineNum] moved on by [k]. *)
Definition shift (k : nat) (st : state) : state :=
  mkState (st_bi st) (st_last st) (k + st_lineNum st).

(** What every value held by the receiver satisfies: no newline in the
    main path, and modules whose columns have no tab or newline and whose
    replacements are not replaced. *)
Definition columnar (bi : BuildInfo) : bool :=
  oneLine (bi_Path bi) && encodableMod (bi_Main bi)
  && forallb encodableMod (bi_Deps bi).

(** ** More sample texts *)

Definition ex_mod_B_short : string := "mod" +:+ TAB +:+ "B".
Definition ex_dep_short : string := "dep" +:+ TAB +:+ "Y".
Definition ex_build_line : string := "build" +:+ TAB +:+ "-race=true".

(** ** Columns of a module line *)

(** The path, version and checksum that the columns [cs] of a [mod] or
    [dep] line stand for: two columns leave the checksum empty, three
    give it; any other number is none. *)
Definition lineFields (cs : list string) : option (string * string * string) :=
  match cs with
  | [p; v] => Some (p, v, EmptyString)
  | [p; v; s] => Some (p, v, s)
  | _ => None
  end.

(** A value in which no string of a module or of a replacement holds a
    tab or a newline, no replacement has a replacement, and the main path
    holds no newline. *)
Definition cleanMod (m : Module_) : bool :=
  oneColumn (Path m) && oneColumn (Version m) && oneColumn (Sum m)
  && match Replace m with
     | None => true
     | Some r =>
         oneColumn (Path r) && oneColumn (Version r) && oneColumn (Sum r)
         && match Replace r with None => true | Some _ => false end
     end.

Definition clean (bi : BuildInfo) : bool :=
  oneLine (bi_Path bi) && cleanMod (bi_Main bi) && forallb cleanMod (bi_Deps bi).

(** A dependency without version whose checksum holds a tab. *)
Definition ex_tab_sum : BuildInfo :=
  mkBuildInfo "cmd/x" (mkModule "example.com/m" "v1.0.0" "" None)
    [mkModule "example.com/d" "" ("h1:abc" +:+ TAB +:+ "x") None].

(** A main module with a checksum and neither path nor version. *)
Definition ex_pathless_sum : BuildInfo :=
  mkBuildInfo "cmd/x" (mkModule "" "" "h1:abc" None) [ex_d1].
(** * Properties *)

(** ** Running the code *)

Example split_three :
  bytes.Split ("A" +:+ TAB +:+ "v1" +:+ TAB +:+ "h1:x") tab = ["A"; "v1"; "h1:x"].
Proof. reflexivity. Qed.

Example split_empty : bytes.Split "" tab = [""].
Proof. reflexivity. Qed.

Example cut_first_newline :
  bytes.Cut ("a" +:+ NL +:+ "b" +:+ NL) newline = ("a", "b" +:+ NL, true).
Proof. reflexivity. Qed.

Example decode_short_replacement :
  UnmarshalText zeroBuildInfo (ex_mod_A +:+ NL +:+ ex_rep_B +:+ NL)
  = (mkBuildInfo "" (mkModule "A" "v1" "" None) [],
     Some (mkFormatError 2 (ErrReplColumns 1))).
Proof. reflexivity. Qed.

Example decode_orphan_replacement :
  UnmarshalText zeroBuildInfo (ex_rep_A +:+ NL)
  = (zeroBuildInfo, Some (mkFormatError 1 ErrNoModule)).
Proof. reflexivity. Qed.

Example encode_ex_full :
  (MarshalText ex_full).1
  = unlines
      [ "path" +:+ TAB +:+ "cmd/x";
        "mod" +:+ TAB +:+ "example.com/m" +:+ TAB +:+ "v1.0.0";
        "=>" +:+ TAB +:+ "example.com/fork" +:+ TAB +:+ "v1.0.1" +:+ TAB +:+ "h1:def";
        "";
        "dep" +:+ TAB +:+ "example.com/d" +:+ TAB +:+ "v1.0.0" +:+ TAB +:+ "h1:abc";
        "dep" +:+ TAB +:+ "example.com/d" +:+ TAB +:+ "v1.2.0";
        "=>" +:+ TAB +:+ "example.com/fork" +:+ TAB +:+ "v1.0.1" +:+ TAB +:+ "h1:def";
        "" ].
Proof. reflexivity. Qed.

(** ** Strings *)

Section Strings.

Lemma str_app_cons a s t : String a s +:+ t = String a (s +:+ t).
Proof. reflexivity. Qed.

Lemma str_app_nil_l t : "" +:+ t = t.
Proof. reflexivity. Qed.

Lemma str_app_nil_r s : s +:+ "" = s.
Proof. induction s as [|a s IH]; [done|]. by rewrite str_app_cons, IH. Qed.

Lemma str_app_assoc s t u : (s +:+ t) +:+ u = s +:+ (t +:+ u).
Proof. induction s as [|a s IH]; [done|]. by rewrite !str_app_cons, IH. Qed.

Lemma str_length_app s t : String.length (s +:+ t) = String.length s + String.length t.
Proof. induction s as [|a s IH]; [done|]. rewrite str_app_cons. simpl. by rewrite IH. Qed.

Lemma str_take_app s t : bytes.take (String.length s) (s +:+ t) = s.
Proof. induction s as [|a s IH]; [by destruct t|]. rewrite str_app_cons. simpl. by rewrite IH. Qed.

Lemma str_drop_app s t n :
  bytes.drop (String.length s + n) (s +:+ t) = bytes.drop n t.
Proof. induction s as [|a s IH]; [done|]. by rewrite str_app_cons. Qed.

Lemma str_drop_0 s : bytes.drop 0 s = s.
Proof. by destruct s. Qed.

Lemma str_take_all s : bytes.take (String.length s) s = s.
Proof. induction s as [|a s IH]; [done|]. simpl. by rewrite IH. Qed.

Lemma hasByte_app c s t : hasByte c (s +:+ t) = hasByte c s || hasByte c t.
Proof.
  induction s as [|a s IH]; [done|]. rewrite str_app_cons. simpl.
  by destruct (Ascii.eqb a c).
Qed.

Lemma HasPrefix_app p s : bytes.HasPrefix (p +:+ s) p = true.
Proof.
  induction p as [|a p IH]; [by destruct s|]. rewrite str_app_cons. simpl.
  by rewrite Ascii.eqb_refl.
Qed.

(** [Index] with a one-byte separator finds the first occurrence. *)
Lemma Index_absent c s :
  hasByte c s = false → bytes.Index s (String c "") = None.
Proof.
  induction s as [|a s IH]; [done|]. simpl.
  destruct (Ascii.eqb a c); [done|]. intros H. by rewrite IH.
Qed.

Lemma Index_first c s t :
  hasByte c s = false →
  bytes.Index (s +:+ String c t) (String c "") = Some (String.length s).
Proof.
  induction s as [|a s IH].
  - intros _. rewrite str_app_nil_l. simpl.
    by rewrite Ascii.eqb_refl.
  - rewrite str_app_cons. simpl. destruct (Ascii.eqb a c); [done|].
    intros H. by rewrite IH.
Qed.

Lemma Cut_absent c s :
  hasByte c s = false → bytes.Cut s (String c "") = (s, "", false).
Proof. intros H. unfold bytes.Cut. by rewrite Index_absent. Qed.

Lemma Cut_first c s t :
  hasByte c s = false → bytes.Cut (s +:+ String c t) (String c "") = (s, t, true).
Proof.
  intros H. unfold bytes.Cut. rewrite Index_first by done.
  rewrite str_take_app. change (String.length (String c "")) with 1.
  rewrite str_drop_app. done.
Qed.

Lemma genSplit_absent c n s :
  hasByte c s = false → bytes.genSplit n s (String c "") = [s].
Proof. intros H. destruct n; [done|]. simpl. by rewrite Index_absent. Qed.

Lemma genSplit_first c n s t :
  hasByte c s = false →
  bytes.genSplit (S n) (s +:+ String c t) (String c "")
  = s :: bytes.genSplit n t (String c "").
Proof.
  intros H. simpl. rewrite Index_first by done.
  rewrite str_take_app. change (String.length (String c "")) with 1.
  by rewrite str_drop_app.
Qed.

End Strings.

(** ** The loop, line by line *)

Section Scanning.

Lemma scanLoop_S fuel data st :
  scanLoop (S fuel) data st
  = if String.length data =? 0 then (st, None)
    else
      let '(line, data', ok) := bytes.Cut data newline in
      if negb ok then (st, None)
      else
        match doLine line st with
        | (st', Some e) => (st', Some e)
        | (st', None) => scanLoop fuel data' (nextLine st')
        end.
Proof. reflexivity. Qed.

Lemma oneLine_true s : oneLine s = true → hasByte "010" s = false.
Proof. unfold oneLine. by destruct (hasByte _ s). Qed.

Lemma oneLine_app s t : oneLine (s +:+ t) = oneLine s && oneLine t.
Proof. unfold oneLine. rewrite hasByte_app. by destruct (hasByte _ s). Qed.

Lemma unlines_app ls ls' : unlines (ls ++ ls') = unlines ls +:+ unlines ls'.
Proof.
  induction ls as [|l ls IH]; [done|]. simpl.
  by rewrite IH, !str_app_assoc.
Qed.

(** On a text of newline-terminated lines followed by a fragment without
    newline, the loop runs the [switch] on each line in turn and leaves
    the fragment alone. *)
Lemma scanLoop_unlines ls frag fuel st :
  forallb oneLine ls = true → oneLine frag = true →
  String.length (unlines ls +:+ frag) ≤ fuel →
  scanLoop fuel (unlines ls +:+ frag) st = runLines ls st.
Proof.
  revert fuel st. induction ls as [|l ls IH]; intros fuel st Hls Hfrag Hfuel.
  - simpl unlines. rewrite str_app_nil_l. destruct fuel as [|fuel]; [done|].
    rewrite scanLoop_S. destruct (String.length frag =? 0); [done|].
    unfold newline, NL. by rewrite Cut_absent by by apply oneLine_true.
  - simpl in Hls. apply andb_prop in Hls as [Hl Hls].
    simpl unlines in *. unfold NL in *.
    rewrite !str_app_assoc, str_app_cons, str_app_nil_l in *.
    rewrite str_length_app in Hfuel. simpl in Hfuel.
    destruct fuel as [|fuel]; [lia|].
    rewrite scanLoop_S, str_length_app. simpl String.length.
    replace (String.length l + S _ =? 0) with false
      by (symmetry; apply Nat.eqb_neq; lia).
    unfold newline, NL. rewrite Cut_first by by apply oneLine_true.
    simpl negb. cbv iota.
    simpl runLines. destruct (doLine l st) as [st' [e|]]; [done|].
    apply IH; [done..|lia].
Qed.

Lemma linesOf_spec data :
  data = unlines (linesOf data).1 +:+ (linesOf data).2
  ∧ forallb oneLine (linesOf data).1 = true
  ∧ oneLine (linesOf data).2 = true.
Proof.
  induction data as [|c data (IH1 & IH2 & IH3)]; [done|].
  simpl. destruct (linesOf data) as [ls frag]. simpl in *.
  destruct (Ascii.eqb_spec c "010") as [->|Hc].
  - simpl. split_and!; [|done..]. by rewrite IH1 at 1.
  - assert (Ascii.eqb c "010" = false) as Hc' by by apply Ascii.eqb_neq.
    destruct ls as [|l ls]; simpl in *.
    + split_and!; [by rewrite IH1 at 1|done|].
      unfold oneLine in *. simpl. by rewrite Hc'.
    + split_and!; [by rewrite IH1 at 1| |done].
      apply andb_prop in IH2 as [IHl IHls]. rewrite IHls, andb_true_r.
      unfold oneLine in *. simpl. by rewrite Hc'.
Qed.

(** Any number of iterations from [len(data)] on gives the same result:
    the loop has ended by then. *)
Lemma scanLoop_fuel fuel data st :
  String.length data ≤ fuel →
  scanLoop fuel data st = scanLoop (String.length data) data st.
Proof.
  intros Hfuel. destruct (linesOf_spec data) as (Hdata & Hls & Hfrag).
  rewrite Hdata. rewrite !scanLoop_unlines; try done. by rewrite <-Hdata.
Qed.

Lemma scan_unlines ls frag :
  forallb oneLine ls = true → oneLine frag = true →
  scan (unlines ls +:+ frag) = runLines ls initState.
Proof. intros. unfold scan. by apply scanLoop_unlines. Qed.

Lemma scan_linesOf data : scan data = runLines (linesOf data).1 initState.
Proof.
  destruct (linesOf_spec data) as (Hd & Hls & Hfrag).
  rewrite Hd at 1. by apply scan_unlines.
Qed.

Lemma UnmarshalText_scan bi data :
  UnmarshalText bi data
  = ((scan data).1.(st_bi), mkFormatError (scan data).1.(st_lineNum) <$> (scan data).2).
Proof. unfold UnmarshalText, scan, initState. by destruct (scanLoop _ _ _). Qed.

Lemma runLines_app ls ls' st :
  runLines (ls ++ ls') st
  = match runLines ls st with
    | (st', Some e) => (st', Some e)
    | (st', None) => runLines ls' st'
    end.
Proof.
  revert st. induction ls as [|l ls IH]; intros st; [done|].
  simpl. destruct (doLine l st) as [st' [e|]]; [done|]. apply IH.
Qed.

Lemma doLine_lineNum l st : st_lineNum (doLine l st).1 = st_lineNum st.
Proof.
  unfold doLine.
  repeat (case_match; simpl; try done).
Qed.

Lemma runLines_lineNum ls st st' :
  runLines ls st = (st', None) → st_lineNum st' = st_lineNum st + length ls.
Proof.
  revert st. induction ls as [|l ls IH]; intros st; simpl.
  - intros [= ->]. lia.
  - pose proof (doLine_lineNum l st) as Hl.
    destruct (doLine l st) as [st1 [e|]]; [done|].
    intros ->%IH. simpl in *. lia.
Qed.

End Scanning.

(** ** The cases of the [switch] *)

Section Switch.

Lemma prefix_mod_not_path l :
  bytes.HasPrefix l modLine = true → bytes.HasPrefix l pathLine = false.
Proof. destruct l as [|a l]; [done|]. simpl. by destruct (Ascii.eqb_spec a "m") as [->|]. Qed.

Lemma prefix_dep_not_path l :
  bytes.HasPrefix l depLine = true → bytes.HasPrefix l pathLine = false.
Proof. destruct l as [|a l]; [done|]. simpl. by destruct (Ascii.eqb_spec a "d") as [->|]. Qed.

Lemma prefix_dep_not_mod l :
  bytes.HasPrefix l depLine = true → bytes.HasPrefix l modLine = false.
Proof. destruct l as [|a l]; [done|]. simpl. by destruct (Ascii.eqb_spec a "d") as [->|]. Qed.

Lemma prefix_rep_not_path l :
  bytes.HasPrefix l repLine = true → bytes.HasPrefix l pathLine = false.
Proof. destruct l as [|a l]; [done|]. simpl. by destruct (Ascii.eqb_spec a "=") as [->|]. Qed.

Lemma prefix_rep_not_mod l :
  bytes.HasPrefix l repLine = true → bytes.HasPrefix l modLine = false.
Proof. destruct l as [|a l]; [done|]. simpl. by destruct (Ascii.eqb_spec a "=") as [->|]. Qed.

Lemma prefix_rep_not_dep l :
  bytes.HasPrefix l repLine = true → bytes.HasPrefix l depLine = false.
Proof. destruct l as [|a l]; [done|]. simpl. by destruct (Ascii.eqb_spec a "=") as [->|]. Qed.

Lemma doLine_path l st :
  bytes.HasPrefix l pathLine = true →
  doLine l st
  = (mkState (withPath (bytes.drop (String.length pathLine) l) (st_bi st))
       (st_last st) (st_lineNum st), None).
Proof. intros H. unfold doLine. by rewrite H. Qed.

Lemma doLine_mod l st :
  bytes.HasPrefix l modLine = true →
  doLine l st
  = (mkState (assign TMain (readModuleLine (columns modLine l)).1 (st_bi st))
       (Some TMain) (st_lineNum st),
     (readModuleLine (columns modLine l)).2).
Proof.
  intros H. unfold doLine. rewrite (prefix_mod_not_path l H), H.
  unfold columns. by destruct (readModuleLine _).
Qed.

Lemma doLine_dep l st :
  bytes.HasPrefix l depLine = true →
  doLine l st
  = (mkState
       (assign (TDep (length (bi_Deps (st_bi st))))
          (readModuleLine (columns depLine l)).1
          (mkBuildInfo (bi_Path (st_bi st)) (bi_Main (st_bi st))
             (bi_Deps (st_bi st) ++ [zeroModule])))
       (Some (TDep (length (bi_Deps (st_bi st))))) (st_lineNum st),
     (readModuleLine (columns depLine l)).2).
Proof.
  intros H. unfold doLine.
  rewrite (prefix_dep_not_path l H), (prefix_dep_not_mod l H), H.
  unfold columns. by destruct (readModuleLine _).
Qed.

Lemma doLine_rep l st :
  bytes.HasPrefix l repLine = true →
  doLine l st
  = if negb (length (columns repLine l) =? 3)
    then (st, Some (ErrReplColumns (length (columns repLine l))))
    else match st_last st with
         | None => (st, Some ErrNoModule)
         | Some last =>
             (mkState (assignReplace last (replacementOfLine l) (st_bi st))
                None (st_lineNum st), None)
         end.
Proof.
  intros H. unfold doLine.
  by rewrite (prefix_rep_not_path l H), (prefix_rep_not_mod l H),
    (prefix_rep_not_dep l H), H.
Qed.

Lemma doLine_passive l st :
  passive l = true →
  doLine l st
  = (if bytes.HasPrefix l pathLine
     then mkState (withPath (bytes.drop (String.length pathLine) l) (st_bi st))
            (st_last st) (st_lineNum st)
     else st, None).
Proof.
  unfold passive, doLine. intros H.
  destruct (bytes.HasPrefix l pathLine); [done|].
  destruct (bytes.HasPrefix l modLine); [done|].
  destruct (bytes.HasPrefix l depLine); [done|].
  by destruct (bytes.HasPrefix l repLine).
Qed.

End Switch.


(** ** Decoding a text from its lines *)

Section Decoding.

Lemma str_take_drop n s : bytes.take n s +:+ bytes.drop n s = s.
Proof.
  revert n. induction s as [|a s IH]; intros [|n]; try done.
  simpl. by rewrite str_app_cons, IH.
Qed.

Lemma str_length_take n s : n ≤ String.length s → String.length (bytes.take n s) = n.
Proof.
  revert n. induction s as [|a s IH]; intros [|n]; simpl; try done; try lia.
  intros H. rewrite IH; lia.
Qed.

Lemma str_length_drop n s : String.length (bytes.drop n s) = String.length s - n.
Proof. revert n. induction s as [|a s IH]; intros [|n]; simpl; try done. Qed.

Lemma scan_unlines_only ls :
  forallb oneLine ls = true → scan (unlines ls) = runLines ls initState.
Proof.
  intros H. rewrite <-(str_app_nil_r (unlines ls)). by apply scan_unlines.
Qed.

(** Decoding a text that starts with complete lines: the lines are run
    first, and the rest of the text only if none of them fails. *)
Lemma scan_unlines_app ls rest :
  forallb oneLine ls = true →
  scan (unlines ls +:+ rest)
  = match runLines ls initState with
    | (st', Some e) => (st', Some e)
    | (st', None) => runLines (linesOf rest).1 st'
    end.
Proof.
  intros Hls. destruct (linesOf_spec rest) as (Hrest & Hlr & Hfr).
  rewrite Hrest at 1. rewrite <-str_app_assoc, <-unlines_app.
  rewrite scan_unlines; [|by rewrite forallb_app, Hls, Hlr|done].
  apply runLines_app.
Qed.

Lemma scan_lineNum ls st :
  forallb oneLine ls = true → scan (unlines ls) = (st, None) →
  st_lineNum st = S (length ls).
Proof.
  intros Hls. rewrite scan_unlines_only by done.
  intros ->%runLines_lineNum. done.
Qed.

(** A line on which the [switch] returns an error, after lines that
    decode: the decoder stops there and reports that line's number. *)
Lemma decode_line_error bi ls l rest st st1 e :
  forallb oneLine ls = true → oneLine l = true →
  scan (unlines ls) = (st, None) →
  doLine l st = (st1, Some e) →
  UnmarshalText bi (unlines ls +:+ l +:+ NL +:+ rest)
  = (st_bi st1, Some (mkFormatError (S (length ls)) e)).
Proof.
  intros Hls Hl Hscan Hdo.
  pose proof (scan_lineNum ls st Hls Hscan) as Hnum.
  rewrite scan_unlines_only in Hscan by done.
  rewrite UnmarshalText_scan.
  replace (unlines ls +:+ l +:+ NL +:+ rest)
    with (unlines (ls ++ [l]) +:+ rest)
    by (by rewrite unlines_app; simpl; rewrite !str_app_assoc).
  rewrite scan_unlines_app by (by rewrite forallb_app; simpl; rewrite Hls, Hl).
  rewrite runLines_app, Hscan. simpl. rewrite Hdo. simpl.
  pose proof (doLine_lineNum l st) as Hst1. rewrite Hdo in Hst1. simpl in Hst1.
  by rewrite Hst1, Hnum.
Qed.

(** Lines appended to lines that decode are run from the state reached. *)
Lemma scan_more_lines ls ls' st :
  forallb oneLine ls = true → forallb oneLine ls' = true →
  scan (unlines ls) = (st, None) →
  scan (unlines (ls ++ ls')) = runLines ls' st.
Proof.
  intros Hls Hls' Hscan. rewrite scan_unlines_only in Hscan by done.
  rewrite scan_unlines_only by (by rewrite forallb_app, Hls, Hls').
  by rewrite runLines_app, Hscan.
Qed.

End Decoding.

Arguments bytes.HasPrefix : simpl never.
Arguments bytes.drop : simpl never.
Arguments columns : simpl never.

(** ** The receiver *)

(** C10: the receiver is reset before the scan, so the decoded value and
    the error depend on the input bytes only: two receivers with any
    contents end up equal on the same input, and on the empty input the
    receiver ends up zeroed. *)
Theorem UnmarshalText_ignores_receiver (bi1 bi2 : BuildInfo) (data : string) :
  UnmarshalText bi1 data = UnmarshalText bi2 data
  ∧ UnmarshalText bi1 "" = (zeroBuildInfo, None).
Proof. split; reflexivity. Qed.

(** ** The unterminated last line *)

(** C4: bytes after the last newline are never handed to the [switch]:
    appending a fragment without newline to any input changes neither the
    decoded value nor the error. *)
Theorem trailing_fragment_ignored (bi : BuildInfo) (data frag : string) :
  oneLine frag = true →
  UnmarshalText bi (data +:+ frag) = UnmarshalText bi data.
Proof.
  intros Hfrag. rewrite !UnmarshalText_scan.
  destruct (linesOf_spec data) as (Hdata & Hls & Hf0).
  assert (scan (data +:+ frag) = scan data) as ->; [|done].
  rewrite Hdata at 1. rewrite str_app_assoc.
  rewrite scan_unlines; [|done|by rewrite oneLine_app, Hf0, Hfrag].
  by rewrite scan_linesOf.
Qed.

Lemma trailing_fragment_ignored_witness :
  oneLine ex_rep_B = true
  ∧ UnmarshalText zeroBuildInfo ((ex_mod_A +:+ NL) +:+ ex_rep_B)
    = (mkBuildInfo "" (mkModule "A" "v1" "" None) [], None).
Proof.
  split; [reflexivity|].
  rewrite (trailing_fragment_ignored zeroBuildInfo (ex_mod_A +:+ NL) ex_rep_B eq_refl).
  reflexivity.
Defined.

(** ** The framing gate *)

(** C3: a string shorter than 32 bytes yields absence; a longer one is
    16 bytes of framing, a payload and 16 bytes of framing, and the result
    is the decoded payload (absence when the payload does not decode); with
    an empty payload the result is the zero [BuildInfo]. *)
Theorem ReadBuildInfo_framing (d pre payload post : string) :
  (String.length d < 32 → ReadBuildInfo d = None)
  ∧ (32 ≤ String.length d →
     ∃ pre' payload' post',
       d = pre' +:+ payload' +:+ post'
       ∧ String.length pre' = 16 ∧ String.length post' = 16)
  ∧ (String.length pre = 16 → String.length post = 16 →
     ReadBuildInfo (pre +:+ payload +:+ post)
     = match UnmarshalText zeroBuildInfo payload with
       | (bi, None) => Some bi
       | (_, Some _) => None
       end
     ∧ ReadBuildInfo (pre +:+ post) = Some zeroBuildInfo).
Proof.
  split_and!.
  - intros H. unfold ReadBuildInfo.
    by replace (String.length d <? 32) with true
      by (symmetry; apply Nat.ltb_lt; lia).
  - intros H.
    exists (bytes.take 16 d), (bytes.take (String.length d - 32) (bytes.drop 16 d)),
      (bytes.drop (String.length d - 32) (bytes.drop 16 d)).
    rewrite !str_take_drop, str_length_take, !str_length_drop by lia.
    split_and!; [done..|lia].
  - intros Hpre Hpost.
    assert (∀ p, ReadBuildInfo (pre +:+ p +:+ post)
                 = match UnmarshalText zeroBuildInfo p with
                   | (bi, None) => Some bi
                   | (_, Some _) => None
                   end) as Hread.
    { intros p. unfold ReadBuildInfo, bytes.slice.
      rewrite !str_length_app, Hpre, Hpost.
      replace (16 + (String.length p + 16) <? 32) with false
        by (symmetry; apply Nat.ltb_ge; lia).
      replace (bytes.drop 16 (pre +:+ p +:+ post)) with (p +:+ post)
        by (rewrite <-Hpre, <-(str_drop_0 (p +:+ post)) at 1; symmetry;
            rewrite <-(Nat.add_0_r (String.length pre)); apply str_drop_app).
      replace (16 + (String.length p + 16) - 16 - 16) with (String.length p) by lia.
      rewrite str_take_app. by destruct (UnmarshalText _ p) as [bi [e|]]. }
    split; [apply Hread|]. apply (Hread "").
Qed.

Lemma ReadBuildInfo_framing_witness :
  ReadBuildInfo "a blob of thirty-one bytes only" = None
  ∧ ReadBuildInfo (ex_frame +:+ (ex_mod_A +:+ NL) +:+ ex_frame)
    = Some (mkBuildInfo "" (mkModule "A" "v1" "" None) [])
  ∧ ReadBuildInfo (ex_frame +:+ ex_frame) = Some zeroBuildInfo.
Proof.
  pose proof (ReadBuildInfo_framing "a blob of thirty-one bytes only"
                ex_frame (ex_mod_A +:+ NL) ex_frame) as (Hshort & _ & Hframed).
  split; [apply Hshort; vm_compute; lia|].
  destruct (Hframed eq_refl eq_refl) as [Hpayload Hempty].
  split; [exact Hpayload | exact Hempty].
Defined.

(** ** Column counts and line numbers *)

(** The cases of the [switch], by the prefix of the line. *)
Ltac switch_cases l st :=
  let Hmod := fresh "Hmod" in
  let Hdep := fresh "Hdep" in
  let Hrep := fresh "Hrep" in
  destruct (bytes.HasPrefix l modLine) eqn:Hmod;
  [ rewrite (doLine_mod l st Hmod)
  | destruct (bytes.HasPrefix l depLine) eqn:Hdep;
    [ rewrite (doLine_dep l st Hdep)
    | destruct (bytes.HasPrefix l repLine) eqn:Hrep;
      [ rewrite (doLine_rep l st Hrep)
      | rewrite (doLine_passive l st)
          by (unfold passive; rewrite Hmod, Hdep, Hrep; reflexivity) ] ] ].

Lemma readModuleLine_bad elem :
  length elem ≠ 2 → length elem ≠ 3 →
  readModuleLine elem = (zeroModule, Some (ErrModColumns (length elem))).
Proof.
  intros H2 H3. unfold readModuleLine.
  apply Nat.eqb_neq in H2, H3. by rewrite H2, H3.
Qed.

Lemma readModuleLine_good elem :
  length elem = 2 ∨ length elem = 3 →
  readModuleLine elem
  = (mkModule (col elem 0) (col elem 1)
       (if length elem =? 3 then col elem 2 else "") None, None).
Proof. intros [H|H]; unfold readModuleLine; by rewrite H. Qed.

(** C5: after lines that decode, a [mod] or [dep] line whose columns are
    neither 2 nor 3, and a [=>] line whose columns are not 3, stop the
    decoder with the column-count error; the line number reported is one
    more than the number of lines before it, whatever those lines are. *)
Theorem column_count_errors
    (bi : BuildInfo) (ls : list string) (l rest : string) (st : state) (k : nat) :
  forallb oneLine ls = true → oneLine l = true →
  scan (unlines ls) = (st, None) →
  k ≠ 3 →
  (bytes.HasPrefix l modLine = true ∨ bytes.HasPrefix l depLine = true →
   length (columns modLine l) = k → k ≠ 2 →
   (UnmarshalText bi (unlines ls +:+ l +:+ NL +:+ rest)).2
   = Some (mkFormatError (S (length ls)) (ErrModColumns k)))
  ∧ (bytes.HasPrefix l repLine = true →
     length (columns repLine l) = k →
     (UnmarshalText bi (unlines ls +:+ l +:+ NL +:+ rest)).2
     = Some (mkFormatError (S (length ls)) (ErrReplColumns k))).
Proof.
  intros Hls Hl Hscan Hk3. split.
  - intros Hpre Hk Hk2.
    assert (∃ st1, doLine l st = (st1, Some (ErrModColumns k))) as [st1 Hdo].
    { destruct Hpre as [Hpre|Hpre].
      - rewrite (doLine_mod l st Hpre), readModuleLine_bad by by rewrite Hk.
        rewrite Hk. eauto.
      - rewrite (doLine_dep l st Hpre).
        change (columns depLine l) with (columns modLine l).
        rewrite readModuleLine_bad by by rewrite Hk.
        rewrite Hk. eauto. }
    by rewrite (decode_line_error bi ls l rest st st1 _ Hls Hl Hscan Hdo).
  - intros Hpre Hk.
    assert (doLine l st = (st, Some (ErrReplColumns k))) as Hdo.
    { rewrite (doLine_rep l st Hpre), Hk.
      apply Nat.eqb_neq in Hk3. by rewrite Hk3. }
    by rewrite (decode_line_error bi ls l rest st st _ Hls Hl Hscan Hdo).
Qed.

Lemma column_count_errors_witness :
  (UnmarshalText zeroBuildInfo (ex_mod_A +:+ NL +:+ ex_rep_B +:+ NL)).2
  = Some (mkFormatError 2 (ErrReplColumns 1)).
Proof.
  exact (proj2 (column_count_errors zeroBuildInfo [ex_mod_A] ex_rep_B ""
                  (scan (unlines [ex_mod_A])).1 1
                  eq_refl eq_refl eq_refl ltac:(lia))
           eq_refl eq_refl).
Defined.

(** ** The attachment target *)

Section Target.





(** Passive lines keep [last], the main module and the dependencies. *)
Lemma runLines_passive ign st :
  forallb passive ign = true →
  ∃ p, runLines ign st
       = (mkState (withPath p (st_bi st)) (st_last st)
            (st_lineNum st + length ign), None).
Proof.
  revert st. induction ign as [|l ign IH]; intros st Hign; simpl.
  - exists (bi_Path (st_bi st)). destruct st as [[] ? ?]. simpl.
    by rewrite Nat.add_0_r.
  - simpl in Hign. apply andb_prop in Hign as [Hl Hign].
    rewrite doLine_passive by done.
    destruct (bytes.HasPrefix l pathLine); cbv beta iota;
      match goal with
      | |- context [runLines ign ?s] => destruct (IH s Hign) as [p Hp]; rewrite Hp
      end; exists p; simpl; do 2 f_equal; lia.
Qed.

End Target.





(** A [mod] or [dep] line, passive lines and a [=>] line, in terms of
    the modules the [switch] builds. *)
Lemma passive_lines_keep_target
    (bi : BuildInfo) (ls ign : list string) (m r : string) (st : state) :
  forallb oneLine ls = true → oneLine m = true →
  forallb oneLine ign = true → oneLine r = true →
  scan (unlines ls) = (st, None) →
  length (columns modLine m) = 2 ∨ length (columns modLine m) = 3 →
  forallb passive ign = true →
  bytes.HasPrefix r repLine = true → length (columns repLine r) = 3 →
  (bytes.HasPrefix m modLine = true →
   st_last (scan (unlines (ls ++ [m] ++ ign))).1 = Some TMain
   ∧ ∃ bi',
       UnmarshalText bi (unlines (ls ++ [m] ++ ign ++ [r])) = (bi', None)
       ∧ bi_Main bi' = setReplace (replacementOfLine r) (moduleOfLine m)
       ∧ bi_Deps bi' = bi_Deps (st_bi st))
  ∧ (bytes.HasPrefix m depLine = true →
     st_last (scan (unlines (ls ++ [m] ++ ign))).1
     = Some (TDep (length (bi_Deps (st_bi st))))
     ∧ ∃ bi',
         UnmarshalText bi (unlines (ls ++ [m] ++ ign ++ [r])) = (bi', None)
         ∧ bi_Main bi' = bi_Main (st_bi st)
         ∧ bi_Deps bi'
           = bi_Deps (st_bi st)
             ++ [setReplace (replacementOfLine r) (moduleOfLine m)]).
Proof.
  intros Hls Hm Hign Hr Hscan Hcols Hpass Hpre Hcols3.
  assert (forallb oneLine ([m] ++ ign) = true) as Hmi
    by (by simpl; rewrite Hm, Hign).
  assert (forallb oneLine ([m] ++ ign ++ [r]) = true) as Hmir
    by (by simpl; rewrite forallb_app; simpl; rewrite Hm, Hign, Hr).
  assert (∀ p bi1,
    doLine m st = (mkState bi1 (Some p) (st_lineNum st), None) →
    st_last (scan (unlines (ls ++ [m] ++ ign))).1 = Some p
    ∧ ∃ q, UnmarshalText bi (unlines (ls ++ [m] ++ ign ++ [r]))
           = (assignReplace p (replacementOfLine r) (withPath q bi1), None))
    as Hgen.
  { intros p bi1 Hdo.
    destruct (runLines_passive ign (nextLine (mkState bi1 (Some p) (st_lineNum st)))
                Hpass) as [q Hq].
    simpl in Hq. split.
    - rewrite (scan_more_lines ls ([m] ++ ign) st Hls Hmi Hscan).
      simpl. by rewrite Hdo, Hq.
    - exists q. rewrite UnmarshalText_scan.
      rewrite (scan_more_lines ls ([m] ++ ign ++ [r]) st Hls Hmir Hscan).
      simpl. rewrite Hdo, runLines_app, Hq. simpl.
      by rewrite (doLine_rep r _ Hpre), Hcols3. }
  unfold moduleOfLine. split; intros Hprem.
  - destruct (Hgen TMain (assign TMain (readModuleLine (columns modLine m)).1 (st_bi st)))
      as [Hlast [q Hq]].
    { by rewrite (doLine_mod m st Hprem), readModuleLine_good. }
    split; [done|]. eexists. split; [exact Hq|]. done.
  - destruct (Hgen (TDep (length (bi_Deps (st_bi st))))
                (assign (TDep (length (bi_Deps (st_bi st))))
                   (readModuleLine (columns modLine m)).1
                   (mkBuildInfo (bi_Path (st_bi st)) (bi_Main (st_bi st))
                      (bi_Deps (st_bi st) ++ [zeroModule]))))
      as [Hlast [q Hq]].
    { rewrite (doLine_dep m st Hprem).
      change (columns depLine m) with (columns modLine m).
      by rewrite readModuleLine_good. }
    split; [done|]. eexists. split; [exact Hq|]. split; [done|].
    simpl. rewrite insert_app_r_alt, Nat.sub_diag by done. simpl.
    rewrite alter_app_r_alt, Nat.sub_diag by done. done.
Qed.

(** C9: a [mod] or [dep] line with the columns [p], [v] and, when it has
    a third, [s]; then any number of passive lines (blank, unrecognized or
    [path] lines); then a [=>] line with the three columns [rp], [rv],
    [rs].  When the [=>] line is reached [last] still points to the module
    of the [mod] or [dep] line; decoding succeeds, and that module is
    [p], [v], [s] with the module [rp], [rv], [rs] as [Replace]: the main
    module after a [mod] line, one more dependency after a [dep] line. *)
Theorem replacement_after_passive_lines
    (bi : BuildInfo) (ls ign : list string) (m r : string) (st : state)
    (p v s rp rv rs : string) :
  forallb oneLine ls = true → oneLine m = true →
  forallb oneLine ign = true → oneLine r = true →
  scan (unlines ls) = (st, None) →
  (columns modLine m = [p; v] ∧ s = "") ∨ columns modLine m = [p; v; s] →
  forallb passive ign = true →
  bytes.HasPrefix r repLine = true → columns repLine r = [rp; rv; rs] →
  (bytes.HasPrefix m modLine = true →
   st_last (scan (unlines (ls ++ [m] ++ ign))).1 = Some TMain
   ∧ ∃ bi',
       UnmarshalText bi (unlines (ls ++ [m] ++ ign ++ [r])) = (bi', None)
       ∧ bi_Main bi' = mkModule p v s (Some (mkModule rp rv rs None))
       ∧ bi_Deps bi' = bi_Deps (st_bi st))
  ∧ (bytes.HasPrefix m depLine = true →
     st_last (scan (unlines (ls ++ [m] ++ ign))).1
     = Some (TDep (length (bi_Deps (st_bi st))))
     ∧ ∃ bi',
         UnmarshalText bi (unlines (ls ++ [m] ++ ign ++ [r])) = (bi', None)
         ∧ bi_Main bi' = bi_Main (st_bi st)
         ∧ bi_Deps bi'
           = bi_Deps (st_bi st)
             ++ [mkModule p v s (Some (mkModule rp rv rs None))]).
Proof.
  intros Hls Hm Hign Hr Hscan Hcols Hpass Hpre Hrcols.
  assert (length (columns modLine m) = 2 ∨ length (columns modLine m) = 3)
    as Hlen by (destruct Hcols as [[-> _]| ->]; auto).
  assert (length (columns repLine r) = 3) as Hrlen by by rewrite Hrcols.
  assert (moduleOfLine m = mkModule p v s None) as Hmod
    by (unfold moduleOfLine; destruct Hcols as [[-> ->]| ->]; reflexivity).
  assert (replacementOfLine r = mkModule rp rv rs None) as Hrepl
    by (unfold replacementOfLine; by rewrite Hrcols).
  destruct (passive_lines_keep_target bi ls ign m r st
              Hls Hm Hign Hr Hscan Hlen Hpass Hpre Hrlen) as [Hmain Hdep].
  rewrite Hmod, Hrepl in Hmain, Hdep. split.
  - intros Hprem. destruct (Hmain Hprem) as [Hlast (bi' & Hdec & HM & HD)].
    split; [done|]. by exists bi'.
  - intros Hprem. destruct (Hdep Hprem) as [Hlast (bi' & Hdec & HM & HD)].
    split; [done|]. by exists bi'.
Qed.

Lemma replacement_after_passive_lines_witness :
  st_last (scan (unlines ([] ++ [ex_dep_X] ++ ex_passive))).1 = Some (TDep 0)
  ∧ ∃ bi',
      UnmarshalText zeroBuildInfo (unlines ([] ++ [ex_dep_X] ++ ex_passive ++ [ex_rep_A]))
      = (bi', None)
      ∧ bi_Main bi' = zeroModule
      ∧ bi_Deps bi'
        = [] ++ [mkModule "X" "v2" "h1:x" (Some (mkModule "A" "v1" "sum" None))].
Proof.
  exact (proj2 (replacement_after_passive_lines zeroBuildInfo [] ex_passive
                  ex_dep_X ex_rep_A initState "X" "v2" "h1:x" "A" "v1" "sum"
                  eq_refl eq_refl eq_refl eq_refl eq_refl (or_intror eq_refl)
                  eq_refl eq_refl eq_refl) eq_refl).
Defined.

Example decode_dep_passive_rep :
  UnmarshalText zeroBuildInfo (unlines ([ex_dep_X] ++ ex_passive ++ [ex_rep_A]))
  = (mkBuildInfo "cmd/x" zeroModule
       [mkModule "X" "v2" "h1:x" (Some (mkModule "A" "v1" "sum" None))], None).
Proof. reflexivity. Qed.

(** ** Depth of replacements *)

Section Depth.

Lemma shallow_readModuleLine elem : shallow (readModuleLine elem).1.
Proof. unfold readModuleLine. by destruct (_ && _). Qed.

Lemma shallow_setReplace r m : Replace r = None → shallow (setReplace r m).
Proof. intros Hr r'. simpl. by intros [= <-]. Qed.

Lemma flat_assign p m bi : shallow m → flat bi → flat (assign p m bi).
Proof.
  intros Hm [Hmain Hdeps]. destruct p as [|i]; split; simpl; try done.
  by apply Forall_insert.
Qed.

Lemma flat_assignReplace p r bi :
  Replace r = None → flat bi → flat (assignReplace p r bi).
Proof.
  intros Hr [Hmain Hdeps]. destruct p as [|i]; split; simpl; try done.
  - by apply shallow_setReplace.
  - apply Forall_alter; [done|]. intros m _ _. by apply shallow_setReplace.
Qed.

Lemma doLine_flat l st : flat (st_bi st) → flat (st_bi (doLine l st).1).
Proof.
  intros Hst. switch_cases l st.
  - apply flat_assign; [apply shallow_readModuleLine|done].
  - apply flat_assign; [apply shallow_readModuleLine|].
    destruct Hst as [Hmain Hdeps]. split; [done|]. simpl.
    apply Forall_app. split; [done|]. by apply Forall_singleton.
  - destruct (negb _); [done|]. destruct (st_last st); [|done].
    by apply flat_assignReplace.
  - by destruct (bytes.HasPrefix l pathLine).
Qed.

Lemma runLines_flat ls st : flat (st_bi st) → flat (st_bi (runLines ls st).1).
Proof.
  revert st. induction ls as [|l ls IH]; intros st Hst; [done|]. simpl.
  pose proof (doLine_flat l st Hst) as H1.
  destruct (doLine l st) as [st1 [e|]]; [done|]. by apply IH.
Qed.

(** Whatever the input, and whether or not decoding fails, no module of
    the receiver has a replacement that has a replacement. *)
Lemma UnmarshalText_flat bi data : flat (UnmarshalText bi data).1.
Proof.
  rewrite UnmarshalText_scan, scan_linesOf. simpl.
  apply runLines_flat. split; [done|]. simpl. constructor.
Qed.

End Depth.

(** C8: in the value a successful decode produces, the replacement of the
    main module and the replacement of every dependency have no
    replacement of their own. *)
Theorem decoded_replacements_are_leaves
    (bi bi' : BuildInfo) (data : string) :
  UnmarshalText bi data = (bi', None) →
  (∀ r, Replace (bi_Main bi') = Some r → Replace r = None)
  ∧ (∀ d r, d ∈ bi_Deps bi' → Replace d = Some r → Replace r = None).
Proof.
  intros Hdec. pose proof (UnmarshalText_flat bi data) as [Hmain Hdeps].
  rewrite Hdec in Hmain, Hdeps. simpl in *. split; [exact Hmain|].
  intros d r Hd. rewrite Forall_forall in Hdeps. by apply Hdeps.
Qed.

Lemma decoded_replacements_are_leaves_witness :
  (∀ r, Replace (mkModule "A" "v1" "" (Some (mkModule "A" "v1" "sum" None))) = Some r →
        Replace r = None)
  ∧ (∀ d r, d ∈ [mkModule "X" "v2" "" (Some (mkModule "A" "v1" "sum" None))] →
            Replace d = Some r → Replace r = None).
Proof.
  exact (decoded_replacements_are_leaves zeroBuildInfo
           (mkBuildInfo ""
              (mkModule "A" "v1" "" (Some (mkModule "A" "v1" "sum" None)))
              [mkModule "X" "v2" "" (Some (mkModule "A" "v1" "sum" None))])
           (unlines [ex_mod_A; ex_rep_A; "dep" +:+ TAB +:+ "X" +:+ TAB +:+ "v2"; ex_rep_A])
           eq_refl).
Defined.

(** ** Dependencies, one per [dep] line *)

Section Deps.

Lemma prefix_mod_not_dep l :
  bytes.HasPrefix l modLine = true → bytes.HasPrefix l depLine = false.
Proof.
  intros H. destruct (bytes.HasPrefix l depLine) eqn:Hdep; [|done].
  by rewrite (prefix_dep_not_mod l Hdep) in H.
Qed.

Lemma fields_alter_setReplace r i (l : list Module_) :
  fields <$> alter (setReplace r) i l = fields <$> l.
Proof.
  revert i. induction l as [|m l IH]; intros [|i]; csimpl; try done.
  by rewrite IH.
Qed.

Lemma doLine_deps l st st' :
  doLine l st = (st', None) →
  fields <$> bi_Deps (st_bi st')
  = (fields <$> bi_Deps (st_bi st))
    ++ ((fields ∘ moduleOfLine) <$> List.filter isDepLine [l]).
Proof.
  unfold isDepLine, moduleOfLine. simpl. switch_cases l st.
  - rewrite (prefix_mod_not_dep l Hmod).
    intros [= <- _]. simpl. by rewrite List.app_nil_r.
  - change (columns depLine l) with (columns modLine l).
    intros [= <- _]. simpl.
    rewrite insert_app_r_alt, Nat.sub_diag by done. simpl.
    by rewrite fmap_app.
  - destruct (negb _); [done|]. destruct (st_last st) as [[|i]|]; [| |done];
      intros [= <-]; simpl; rewrite List.app_nil_r; [done|].
    apply fields_alter_setReplace.
  - intros [= <-]. rewrite List.app_nil_r.
    by destruct (bytes.HasPrefix l pathLine).
Qed.

Lemma runLines_deps ls st st' :
  runLines ls st = (st', None) →
  fields <$> bi_Deps (st_bi st')
  = (fields <$> bi_Deps (st_bi st))
    ++ ((fields ∘ moduleOfLine) <$> List.filter isDepLine ls).
Proof.
  revert st. induction ls as [|l ls IH]; intros st.
  - intros [= ->]. simpl. by rewrite List.app_nil_r.
  - change (l :: ls) with ([l] ++ ls). rewrite List.filter_app, fmap_app.
    simpl runLines.
    destruct (doLine l st) as [st1 [e|]] eqn:Hdo; [done|].
    intros Hrun. rewrite (IH _ Hrun). simpl st_bi.
    rewrite (doLine_deps l st st1 Hdo). by rewrite <-List.app_assoc.
Qed.

End Deps.

(** ** What the encoder writes *)

Section Encoder.

(** Induction on modules along [Replace]. *)
Lemma Module_ind' (P : Module_ → Prop) :
  (∀ p v s, P (mkModule p v s None)) →
  (∀ p v s r, P r → P (mkModule p v s (Some r))) →
  ∀ m, P m.
Proof.
  intros Hnone Hsome. fix IH 1. intros [p v s [r|]].
  - apply Hsome, IH.
  - apply Hnone.
Qed.

Lemma formatMod_lines m : ∀ word buf,
  formatMod word m buf = buf +:+ unlines (modLines word m).
Proof.
  induction m as [p v s|p v s r IH] using Module_ind'; intros word buf.
  - simpl. unfold WriteString, WriteByte, TAB, NL, devel.
    by rewrite !str_app_assoc, str_app_nil_r.
  - simpl. rewrite IH. unfold WriteString, WriteByte, TAB, NL, devel.
    rewrite unlines_app. simpl.
    by rewrite !str_app_assoc, !str_app_nil_r.
Qed.

Lemma fold_formatMod deps : ∀ buf,
  fold_left (λ buf dep, formatMod "dep" dep buf) deps buf
  = buf +:+ unlines (flat_map (modLines "dep") deps).
Proof.
  induction deps as [|d deps IH]; intros buf; simpl.
  - by rewrite str_app_nil_r.
  - by rewrite IH, formatMod_lines, unlines_app, str_app_assoc.
Qed.

Lemma MarshalText_lines x : MarshalText x = (unlines (encLines x), None).
Proof.
  unfold MarshalText, encLines. f_equal.
  rewrite fold_formatMod, !unlines_app.
  destruct (negb (String.eqb (bi_Path x) ""));
    destruct (negb (String.eqb (Path (bi_Main x)) ""));
    simpl; rewrite ?formatMod_lines; unfold WriteString;
    by rewrite ?str_app_nil_r, ?str_app_assoc.
Qed.

End Encoder.

(** ** Decoding what the encoder writes *)

Section Codec.

Lemma oneColumn_tab s : oneColumn s = true → hasByte "009" s = false.
Proof. unfold oneColumn. by destruct (hasByte "009" s). Qed.

Lemma oneColumn_oneLine s : oneColumn s = true → oneLine s = true.
Proof. unfold oneColumn, oneLine. by destruct (hasByte "009" s). Qed.

Lemma oneColumn_devel v : oneColumn v = true → oneColumn (devel v) = true.
Proof. unfold devel. by destruct (String.eqb v ""). Qed.

Lemma str_drop_exact s t : bytes.drop (String.length s) (s +:+ t) = t.
Proof.
  rewrite <-(Nat.add_0_r (String.length s)). by rewrite str_drop_app, str_drop_0.
Qed.

Lemma Split_2 a b :
  hasByte "009" a = false → hasByte "009" b = false →
  bytes.Split (a +:+ TAB +:+ b) tab = [a; b].
Proof.
  intros Ha Hb. unfold bytes.Split, tab, TAB.
  rewrite str_app_cons, str_app_nil_l, str_length_app. simpl String.length.
  rewrite Nat.add_succ_r.
  by rewrite genSplit_first, genSplit_absent.
Qed.

Lemma Split_3 a b c :
  hasByte "009" a = false → hasByte "009" b = false → hasByte "009" c = false →
  bytes.Split (a +:+ TAB +:+ b +:+ TAB +:+ c) tab = [a; b; c].
Proof.
  intros Ha Hb Hc. unfold bytes.Split, tab, TAB.
  rewrite !str_app_cons, !str_app_nil_l, !str_length_app. simpl String.length.
  rewrite str_length_app. simpl String.length.
  rewrite !Nat.add_succ_r.
  by rewrite !genSplit_first, genSplit_absent.
Qed.

Lemma columns_prefix p rest : columns p (p +:+ rest) = bytes.Split rest tab.
Proof. unfold columns. by rewrite str_drop_exact. Qed.

(** The four kinds of line the encoder writes, through the [switch]. *)
Lemma doLine_enc_path p st :
  doLine (pathLine +:+ p) st
  = (mkState (withPath p (st_bi st)) (st_last st) (st_lineNum st), None).
Proof. rewrite doLine_path by apply HasPrefix_app. by rewrite str_drop_exact. Qed.

Lemma doLine_enc_mod3 p v s st :
  oneColumn p = true → oneColumn v = true → oneColumn s = true →
  doLine ("mod" +:+ TAB +:+ p +:+ TAB +:+ v +:+ TAB +:+ s) st
  = (mkState (assign TMain (mkModule p v s None) (st_bi st))
       (Some TMain) (st_lineNum st), None).
Proof.
  intros Hp Hv Hs.
  change ("mod" +:+ TAB +:+ ?x) with (modLine +:+ x).
  rewrite doLine_mod by apply HasPrefix_app.
  by rewrite columns_prefix, Split_3 by by apply oneColumn_tab.
Qed.

Lemma doLine_enc_mod2 p v st :
  oneColumn p = true → oneColumn v = true →
  doLine ("mod" +:+ TAB +:+ p +:+ TAB +:+ v) st
  = (mkState (assign TMain (mkModule p v "" None) (st_bi st))
       (Some TMain) (st_lineNum st), None).
Proof.
  intros Hp Hv.
  change ("mod" +:+ TAB +:+ ?x) with (modLine +:+ x).
  rewrite doLine_mod by apply HasPrefix_app.
  by rewrite columns_prefix, Split_2 by by apply oneColumn_tab.
Qed.

Lemma doLine_enc_dep3 p v s st :
  oneColumn p = true → oneColumn v = true → oneColumn s = true →
  doLine ("dep" +:+ TAB +:+ p +:+ TAB +:+ v +:+ TAB +:+ s) st
  = (mkState
       (mkBuildInfo (bi_Path (st_bi st)) (bi_Main (st_bi st))
          (bi_Deps (st_bi st) ++ [mkModule p v s None]))
       (Some (TDep (length (bi_Deps (st_bi st))))) (st_lineNum st), None).
Proof.
  intros Hp Hv Hs.
  change ("dep" +:+ TAB +:+ ?x) with (depLine +:+ x).
  rewrite doLine_dep by apply HasPrefix_app.
  rewrite columns_prefix, Split_3 by by apply oneColumn_tab.
  simpl. by rewrite insert_app_r_alt, Nat.sub_diag by done.
Qed.

Lemma doLine_enc_dep2 p v st :
  oneColumn p = true → oneColumn v = true →
  doLine ("dep" +:+ TAB +:+ p +:+ TAB +:+ v) st
  = (mkState
       (mkBuildInfo (bi_Path (st_bi st)) (bi_Main (st_bi st))
          (bi_Deps (st_bi st) ++ [mkModule p v "" None]))
       (Some (TDep (length (bi_Deps (st_bi st))))) (st_lineNum st), None).
Proof.
  intros Hp Hv.
  change ("dep" +:+ TAB +:+ ?x) with (depLine +:+ x).
  rewrite doLine_dep by apply HasPrefix_app.
  rewrite columns_prefix, Split_2 by by apply oneColumn_tab.
  simpl. by rewrite insert_app_r_alt, Nat.sub_diag by done.
Qed.

Lemma doLine_enc_rep p v s st last :
  oneColumn p = true → oneColumn v = true → oneColumn s = true →
  st_last st = Some last →
  doLine ("=>" +:+ TAB +:+ p +:+ TAB +:+ v +:+ TAB +:+ s) st
  = (mkState (assignReplace last (mkModule p v s None) (st_bi st))
       None (st_lineNum st), None).
Proof.
  intros Hp Hv Hs Hlast.
  change ("=>" +:+ TAB +:+ ?x) with (repLine +:+ x).
  rewrite doLine_rep by apply HasPrefix_app.
  unfold replacementOfLine.
  rewrite columns_prefix, Split_3 by by apply oneColumn_tab.
  by rewrite Hlast.
Qed.

Lemma doLine_blank st : doLine "" st = (st, None).
Proof. reflexivity. Qed.

End Codec.

Section RoundTrip.

Lemma runLines_cons l ls st :
  runLines (l :: ls) st
  = match doLine l st with
    | (st', Some e) => (st', Some e)
    | (st', None) => runLines ls (nextLine st')
    end.
Proof. reflexivity. Qed.

Lemma encodableMod_inv m :
  encodableMod m = true →
  oneColumn (Path m) = true ∧ oneColumn (Version m) = true
  ∧ match Replace m with
    | None => oneColumn (Sum m) = true
    | Some r =>
        oneColumn (Path r) = true ∧ oneColumn (Version r) = true
        ∧ oneColumn (Sum r) = true ∧ Replace r = None
    end.
Proof.
  unfold encodableMod, encodableRepl.
  intros [[Hp Hv]%andb_prop Hr]%andb_prop. split_and!; [done..|].
  destruct (Replace m) as [r|]; [|done].
  apply andb_prop in Hr as [[[Hrp Hrv]%andb_prop Hrs]%andb_prop Hrr].
  split_and!; [done..|]. by destruct (Replace r).
Qed.

Lemma oneLine_columns3 word p v s :
  oneLine word = true → oneColumn p = true → oneColumn v = true →
  oneColumn s = true →
  oneLine (word +:+ TAB +:+ p +:+ TAB +:+ v +:+ TAB +:+ s) = true.
Proof.
  intros Hw Hp%oneColumn_oneLine Hv%oneColumn_oneLine Hs%oneColumn_oneLine.
  rewrite !oneLine_app. by rewrite Hw, Hp, Hv, Hs.
Qed.

Lemma oneLine_columns2 word p v :
  oneLine word = true → oneColumn p = true → oneColumn v = true →
  oneLine (word +:+ TAB +:+ p +:+ TAB +:+ v) = true.
Proof.
  intros Hw Hp%oneColumn_oneLine Hv%oneColumn_oneLine.
  rewrite !oneLine_app. by rewrite Hw, Hp, Hv.
Qed.

Lemma oneLine_modLines word m :
  oneLine word = true → encodableMod m = true →
  forallb oneLine (modLines word m) = true.
Proof.
  intros Hw (Hp & Hv & Hr)%encodableMod_inv.
  destruct m as [p v s [[rp rv rs rr]|]]; simpl in *.
  - destruct Hr as (Hrp & Hrv & Hrs & ->). simpl.
    rewrite oneLine_columns2, oneLine_columns3; auto using oneColumn_devel.
  - rewrite oneLine_columns3; auto using oneColumn_devel.
Qed.

Lemma oneLine_encLines x :
  encodable x = true → forallb oneLine (encLines x) = true.
Proof.
  unfold encodable, encLines.
  intros [[Hpath Hmain]%andb_prop Hdeps]%andb_prop.
  rewrite !forallb_app. apply andb_true_intro; split;
    [|apply andb_true_intro; split].
  - destruct (negb _); [|done]. simpl. rewrite oneLine_app. by rewrite Hpath.
  - destruct (String.eqb (Path (bi_Main x)) ""); [done|]. simpl in *.
    by apply oneLine_modLines.
  - induction (bi_Deps x) as [|d deps IH]; [done|]. simpl in *.
    apply andb_prop in Hdeps as [Hd Hdeps].
    rewrite forallb_app, IH by done. by rewrite oneLine_modLines.
Qed.

(** The lines of one module, decoded as the main module. *)
Lemma run_modLines_mod m st :
  encodableMod m = true →
  ∃ last n,
    runLines (modLines "mod" m) st
    = (mkState (assign TMain (canonMod m) (st_bi st)) last n, None).
Proof.
  intros (Hp & Hv & Hr)%encodableMod_inv.
  destruct m as [p v s [[rp rv rs rr]|]]; simpl in *.
  - destruct Hr as (Hrp & Hrv & Hrs & ->). simpl.
    rewrite ?runLines_cons, doLine_enc_mod2 by auto using oneColumn_devel.
    cbv beta iota.
    rewrite ?runLines_cons, (doLine_enc_rep _ _ _ _ TMain)
      by auto using oneColumn_devel.
    cbv beta iota. rewrite ?runLines_cons, ?doLine_blank. simpl. eauto.
  - rewrite ?runLines_cons, doLine_enc_mod3 by auto using oneColumn_devel.
    simpl. eauto.
Qed.

(** The lines of one module, decoded as a dependency. *)
Lemma run_modLines_dep m st :
  encodableMod m = true →
  ∃ last n,
    runLines (modLines "dep" m) st
    = (mkState
         (mkBuildInfo (bi_Path (st_bi st)) (bi_Main (st_bi st))
            (bi_Deps (st_bi st) ++ [canonMod m])) last n, None).
Proof.
  intros (Hp & Hv & Hr)%encodableMod_inv.
  destruct m as [p v s [[rp rv rs rr]|]]; simpl in *.
  - destruct Hr as (Hrp & Hrv & Hrs & ->). simpl.
    rewrite ?runLines_cons, doLine_enc_dep2 by auto using oneColumn_devel.
    cbv beta iota.
    rewrite ?runLines_cons,
      (doLine_enc_rep _ _ _ _ (TDep (length (bi_Deps (st_bi st)))))
      by auto using oneColumn_devel.
    cbv beta iota. rewrite ?runLines_cons, ?doLine_blank. simpl.
    rewrite alter_app_r_alt, Nat.sub_diag by done. simpl. eauto.
  - rewrite ?runLines_cons, doLine_enc_dep3 by auto using oneColumn_devel.
    simpl. eauto.
Qed.

Lemma run_deps deps : ∀ st,
  forallb encodableMod deps = true →
  ∃ last n,
    runLines (flat_map (modLines "dep") deps) st
    = (mkState
         (mkBuildInfo (bi_Path (st_bi st)) (bi_Main (st_bi st))
            (bi_Deps (st_bi st) ++ (canonMod <$> deps))) last n, None).
Proof.
  induction deps as [|d deps IH]; intros st Hdeps.
  - exists (st_last st), (st_lineNum st). simpl. rewrite List.app_nil_r.
    by destruct st as [[] ? ?].
  - simpl in Hdeps. apply andb_prop in Hdeps as [Hd Hdeps].
    simpl flat_map. rewrite runLines_app.
    destruct (run_modLines_dep d st Hd) as (last & n & ->).
    destruct (IH (mkState
                    (mkBuildInfo (bi_Path (st_bi st)) (bi_Main (st_bi st))
                       (bi_Deps (st_bi st) ++ [canonMod d])) last n) Hdeps)
      as (last' & n' & ->).
    exists last', n'. simpl. by rewrite <-List.app_assoc.
Qed.

(** Decoding the encoding of an encodable value succeeds and yields its
    canonical form. *)
Lemma decode_encode bi x :
  encodable x = true →
  UnmarshalText bi (MarshalText x).1 = (canon x, None).
Proof.
  intros Henc. rewrite MarshalText_lines. simpl fst.
  rewrite UnmarshalText_scan, scan_unlines_only by by apply oneLine_encLines.
  unfold encodable in Henc.
  apply andb_prop in Henc as [[Hpath Hmain]%andb_prop Hdeps].
  unfold encLines. rewrite runLines_app.
  assert (∃ n, runLines
                 (if negb (String.eqb (bi_Path x) "")
                  then [pathLine +:+ bi_Path x] else []) initState
               = (mkState (withPath (bi_Path x) zeroBuildInfo) None n, None))
    as [n Hn].
  { destruct (String.eqb_spec (bi_Path x) "") as [->|_]; [simpl; by eauto|].
    cbn [negb]. rewrite runLines_cons, doLine_enc_path. simpl. eauto. }
  rewrite Hn. cbv beta iota. rewrite runLines_app.
  assert (∃ last n',
    runLines
      (if negb (String.eqb (Path (bi_Main x)) "")
       then modLines "mod" (bi_Main x) else [])
      (mkState (withPath (bi_Path x) zeroBuildInfo) None n)
    = (mkState
         (mkBuildInfo (bi_Path x)
            (if String.eqb (Path (bi_Main x)) "" then zeroModule
             else canonMod (bi_Main x)) []) last n', None))
    as (last & n' & Hn').
  { destruct (String.eqb (Path (bi_Main x)) ""); simpl in *; [by eauto|].
    apply run_modLines_mod. done. }
  rewrite Hn'. cbv beta iota.
  destruct (run_deps (bi_Deps x)
              (mkState
                 (mkBuildInfo (bi_Path x)
                    (if String.eqb (Path (bi_Main x)) "" then zeroModule
                     else canonMod (bi_Main x)) []) last n') Hdeps)
    as (last' & n'' & ->).
  done.
Qed.

End RoundTrip.

(** ** Round trips *)

Section Canon.

Lemma devel_set v : negb (String.eqb v "") = true → devel v = v.
Proof. unfold devel. by destruct (String.eqb v ""). Qed.

Lemma devel_empty : devel "" = "(devel)".
Proof. reflexivity. Qed.

Lemma devel_devel v : devel (devel v) = devel v.
Proof.
  unfold devel. destruct (String.eqb v "") eqn:Hv; simpl; [done|].
  by rewrite Hv.
Qed.

Lemma devel_not_empty v : String.eqb (devel v) "" = false.
Proof. unfold devel. by destruct (String.eqb v "") eqn:Hv. Qed.

Lemma absentMod_zero m : absentMod m = true → m = zeroModule.
Proof.
  unfold absentMod. destruct m as [p v s [r|]]; simpl;
    intros [[[Hp%String.eqb_eq Hv%String.eqb_eq]%andb_prop
               Hs%String.eqb_eq]%andb_prop Hr]%andb_prop; [done|].
  by subst.
Qed.

Lemma canonMod_exact m :
  encodableMod m = true → exactMod m = true → canonMod m = m.
Proof.
  intros (_ & _ & Hr)%encodableMod_inv. unfold exactMod, canonMod, canonRepl.
  destruct m as [p v s [[rp rv rs rr]|]]; simpl in *.
  - destruct Hr as (_ & _ & _ & ->).
    intros [Hv [->%String.eqb_eq Hrv]%andb_prop]%andb_prop.
    by rewrite !devel_set.
  - intros [Hv _]%andb_prop. by rewrite devel_set.
Qed.

Lemma canonMod_idem m : canonMod (canonMod m) = canonMod m.
Proof.
  unfold canonMod, canonRepl. destruct m as [p v s [r|]]; simpl;
    by rewrite !devel_devel.
Qed.

Lemma encodableMod_canonMod m :
  encodableMod m = true → encodableMod (canonMod m) = true.
Proof.
  intros (Hp & Hv & Hr)%encodableMod_inv.
  unfold encodableMod, encodableRepl, canonMod, canonRepl.
  destruct m as [p v s [r|]]; simpl in *.
  - destruct Hr as (Hrp & Hrv & Hrs & _).
    by rewrite Hp, Hrp, Hrs, !oneColumn_devel.
  - by rewrite Hp, Hr, oneColumn_devel.
Qed.

Lemma canon_exact x : encodable x = true → exact x = true → canon x = x.
Proof.
  unfold encodable, exact, canon.
  intros [[_ Hmain]%andb_prop Hdeps]%andb_prop [Hmain' Hdeps']%andb_prop.
  destruct x as [path main deps]. simpl in *. f_equal.
  - destruct (String.eqb (Path main) ""); simpl in *.
    + symmetry. by apply absentMod_zero.
    + by apply canonMod_exact.
  - induction deps as [|d deps IH]; [done|]. csimpl in *.
    apply andb_prop in Hdeps as [Hd Hdeps].
    apply andb_prop in Hdeps' as [Hd' Hdeps'].
    f_equal; [by apply canonMod_exact|by apply IH].
Qed.

Lemma canon_idem x : canon (canon x) = canon x.
Proof.
  unfold canon. destruct x as [path main deps]. simpl. f_equal.
  - destruct (String.eqb (Path main) "") eqn:Hmain; [done|].
    replace (Path (canonMod main)) with (Path main)
      by (unfold canonMod; by destruct (Replace main)).
    by rewrite Hmain, canonMod_idem.
  - rewrite <-list_fmap_compose. apply list_fmap_ext.
    intros i d _. apply canonMod_idem.
Qed.

Lemma encodable_canon x : encodable x = true → encodable (canon x) = true.
Proof.
  unfold encodable, canon.
  intros [[Hpath Hmain]%andb_prop Hdeps]%andb_prop.
  destruct x as [path main deps]. simpl in *. rewrite Hpath. simpl.
  apply andb_true_intro. split.
  - destruct (String.eqb (Path main) ""); [done|]. simpl in *.
    rewrite encodableMod_canonMod by done. apply orb_true_r.
  - induction deps as [|d deps IH]; [done|]. csimpl in *.
    apply andb_prop in Hdeps as [Hd Hdeps].
    by rewrite encodableMod_canonMod, IH.
Qed.

End Canon.

(** Every version field of [ex_replaced_sum] is set, and decoding its
    encoding loses the checksum of the replaced main module: the line of
    a replaced module has no checksum column. *)
Lemma round_trip_loses_replaced_sum :
  versioned ex_replaced_sum = true
  ∧ UnmarshalText zeroBuildInfo (MarshalText ex_replaced_sum).1 = (ex_replaced, None)
  ∧ ex_replaced ≠ ex_replaced_sum.
Proof. split_and!; [vm_compute; reflexivity..|]. intros [=]. Qed.

(** Other values with every version set that do not come back: a main
    module without path is not written; a tab in a column adds a column;
    the line of a replaced replacement has two columns. *)
Example round_trip_drops_pathless_main :
  versioned ex_pathless_main = true
  ∧ UnmarshalText zeroBuildInfo (MarshalText ex_pathless_main).1
    = (mkBuildInfo "cmd/x" zeroModule [], None).
Proof. split; vm_compute; reflexivity. Qed.

Example round_trip_fails_on_tab :
  versioned ex_tab_path = true
  ∧ UnmarshalText zeroBuildInfo (MarshalText ex_tab_path).1
    = (mkBuildInfo "" (mkModule "example.com/m" "v1.0.0" "" None) [zeroModule],
       Some (mkFormatError 2 (ErrModColumns 4))).
Proof. split; vm_compute; reflexivity. Qed.

Example round_trip_fails_on_nested_replacement :
  versioned ex_nested = true
  ∧ UnmarshalText zeroBuildInfo (MarshalText ex_nested).1
    = (mkBuildInfo "" (mkModule "example.com/m" "v1.0.0" "" None) [],
       Some (mkFormatError 2 (ErrReplColumns 2))).
Proof. split; vm_compute; reflexivity. Qed.

(** C1 (amended): a [BuildInfo] whose columns hold no tab or newline,
    whose replacements are not replaced, whose replaced modules carry no
    checksum, whose main module is the zero module when it has no path,
    and whose written modules all have a version, is decoded from its
    encoding as it was, without error. *)
Theorem round_trip (bi x : BuildInfo) :
  encodable x = true → exact x = true →
  UnmarshalText bi (MarshalText x).1 = (x, None).
Proof.
  intros Henc Hexact. rewrite decode_encode by done.
  by rewrite canon_exact.
Qed.

Lemma round_trip_witness :
  UnmarshalText zeroBuildInfo (MarshalText ex_full).1 = (ex_full, None).
Proof. exact (round_trip zeroBuildInfo ex_full eq_refl eq_refl). Defined.

(** The dependency of [ex_tab_sum] has a path and no version.  Its
    checksum holds a tab, so its line has four columns: decoding the
    encoding fails at that line and leaves a zero module in its place,
    whose version is empty, not "(devel)". *)
Lemma devel_lost_with_tab_in_checksum :
  fields <$> bi_Deps ex_tab_sum
  = [("example.com/d", "", "h1:abc" +:+ TAB +:+ "x")]
  ∧ UnmarshalText zeroBuildInfo (MarshalText ex_tab_sum).1
    = (mkBuildInfo "cmd/x" (mkModule "example.com/m" "v1.0.0" "" None) [zeroModule],
       Some (mkFormatError 3 (ErrModColumns 4)))
  ∧ Version zeroModule ≠ "(devel)".
Proof. split_and!; [vm_compute; reflexivity..|]. intros [=]. Qed.

(** A main module without path is not written, whatever it holds: it
    comes back as the zero module, with an empty version. *)
Example pathless_main_comes_back_zero :
  encodable ex_pathless_sum = true
  ∧ bi_Main ex_pathless_sum = mkModule "" "" "h1:abc" None
  ∧ UnmarshalText zeroBuildInfo (MarshalText ex_pathless_sum).1
    = (mkBuildInfo "cmd/x" zeroModule [ex_d1], None)
  ∧ encodable ex_pathless_main = true
  ∧ bi_Main ex_pathless_main = mkModule "" "v1.0.0" "" None
  ∧ UnmarshalText zeroBuildInfo (MarshalText ex_pathless_main).1
    = (mkBuildInfo "cmd/x" zeroModule [], None).
Proof. split_and!; vm_compute; reflexivity. Qed.

(** C2 (amended): for an encodable [BuildInfo] [x], decoding the encoding
    succeeds and yields the canonical form of [x].  It has the main path
    of [x] and as many dependencies, in the same order.  The main module
    when its path is not empty, every dependency and every replacement of
    these keeps its path and has the version "(devel)" if its version was
    empty and its version otherwise; it keeps its checksum, except that a
    replaced module has an empty one.  A main module whose path is empty
    comes back as the zero module.  Encoding and decoding the canonical
    form yields it again. *)
Theorem devel_normalization (bi x : BuildInfo) :
  encodable x = true →
  UnmarshalText bi (MarshalText x).1 = (canon x, None)
  ∧ bi_Path (canon x) = bi_Path x
  ∧ (Path (bi_Main x) = "" → bi_Main (canon x) = zeroModule)
  ∧ (Path (bi_Main x) ≠ "" →
     bi_Main (canon x)
     = mkModule (Path (bi_Main x))
         (if String.eqb (Version (bi_Main x)) "" then "(devel)"
          else Version (bi_Main x))
         (match Replace (bi_Main x) with
          | None => Sum (bi_Main x)
          | Some _ => ""
          end)
         (Replace (bi_Main (canon x))))
  ∧ length (bi_Deps (canon x)) = length (bi_Deps x)
  ∧ (∀ i d, bi_Deps x !! i = Some d →
       ∃ d', bi_Deps (canon x) !! i = Some d'
         ∧ d' = mkModule (Path d)
                  (if String.eqb (Version d) "" then "(devel)" else Version d)
                  (match Replace d with None => Sum d | Some _ => "" end)
                  (Replace d'))
  ∧ (∀ m m', (Path (bi_Main x) ≠ "" ∧ m = bi_Main x ∧ m' = bi_Main (canon x))
             ∨ (∃ i, bi_Deps x !! i = Some m ∧ bi_Deps (canon x) !! i = Some m') →
       match Replace m with
       | None => Replace m' = None
       | Some r =>
           Replace m'
           = Some (mkModule (Path r)
                     (if String.eqb (Version r) "" then "(devel)" else Version r)
                     (Sum r) None)
       end)
  ∧ (Path (bi_Main x) ≠ "" → Version (bi_Main x) = "" →
     Version (bi_Main (canon x)) = "(devel)")
  ∧ (Path (bi_Main x) ≠ "" →
     ∀ r, Replace (bi_Main x) = Some r → Version r = "" →
          Version <$> Replace (bi_Main (canon x)) = Some "(devel)")
  ∧ (∀ i d, bi_Deps x !! i = Some d → Version d = "" →
            Version <$> bi_Deps (canon x) !! i = Some "(devel)")
  ∧ (∀ i d r, bi_Deps x !! i = Some d → Replace d = Some r → Version r = "" →
              Version <$> (bi_Deps (canon x) !! i ≫= Replace) = Some "(devel)")
  ∧ UnmarshalText bi (MarshalText (canon x)).1 = (canon x, None).
Proof.
  intros Henc. split_and!.
  - by apply decode_encode.
  - done.
  - intros Hpath%String.eqb_eq. unfold canon. simpl. by rewrite Hpath.
  - intros Hpath%String.eqb_neq. unfold canon, canonMod, devel. simpl.
    rewrite Hpath. by destruct (Replace (bi_Main x)).
  - unfold canon. simpl. by rewrite length_fmap.
  - intros i d Hd. exists (canonMod d). unfold canon. simpl.
    rewrite list_lookup_fmap, Hd. split; [done|].
    unfold canonMod, devel. by destruct (Replace d).
  - intros m m' [(Hpath%String.eqb_neq & -> & ->)|(i & Hm & Hm')].
    + unfold canon, canonMod, canonRepl, devel. simpl. rewrite Hpath.
      by destruct (Replace (bi_Main x)).
    + unfold canon in Hm'. simpl in Hm'.
      rewrite list_lookup_fmap, Hm in Hm'. injection Hm' as <-.
      unfold canonMod, canonRepl, devel. by destruct (Replace m).
  - intros Hpath%String.eqb_neq Hv. unfold canon, canonMod. simpl.
    rewrite Hpath. destruct (Replace (bi_Main x)); simpl; by rewrite Hv.
  - intros Hpath%String.eqb_neq r Hr Hv. unfold canon, canonMod. simpl.
    rewrite Hpath, Hr. simpl. by rewrite Hv.
  - intros i d Hd Hv. unfold canon. simpl.
    rewrite list_lookup_fmap, Hd. unfold canonMod. simpl.
    destruct (Replace d); simpl; by rewrite Hv.
  - intros i d r Hd Hr Hv. unfold canon. simpl.
    rewrite list_lookup_fmap, Hd. unfold canonMod. simpl.
    rewrite Hr. simpl. by rewrite Hv.
  - rewrite decode_encode by by apply encodable_canon.
    by rewrite canon_idem.
Qed.

Lemma devel_normalization_witness :
  UnmarshalText zeroBuildInfo (MarshalText ex_devel).1
  = (mkBuildInfo "cmd/x" (mkModule "example.com/m" "(devel)" "" None)
       [mkModule "example.com/d" "v1.0.0" ""
          (Some (mkModule "../d" "(devel)" "" None))], None)
  ∧ UnmarshalText zeroBuildInfo
      (MarshalText
         (mkBuildInfo "cmd/x" (mkModule "example.com/m" "(devel)" "" None)
            [mkModule "example.com/d" "v1.0.0" ""
               (Some (mkModule "../d" "(devel)" "" None))])).1
    = (mkBuildInfo "cmd/x" (mkModule "example.com/m" "(devel)" "" None)
         [mkModule "example.com/d" "v1.0.0" ""
            (Some (mkModule "../d" "(devel)" "" None))], None).
Proof.
  pose proof (devel_normalization zeroBuildInfo ex_devel eq_refl)
    as (Hdec & _ & _ & _ & _ & _ & _ & _ & _ & _ & _ & Hfix).
  split; [exact Hdec|exact Hfix].
Defined.

Example canon_ex_devel :
  canon ex_devel
  = mkBuildInfo "cmd/x" (mkModule "example.com/m" "(devel)" "" None)
      [mkModule "example.com/d" "v1.0.0" "" (Some (mkModule "../d" "(devel)" "" None))].
Proof. reflexivity. Qed.

(** ** Order of the dependencies *)

(** The dependencies [ex_d0; ex_d1] do not come back as they were: the
    first one has no version and comes back with "(devel)". *)
Lemma deps_come_back_normalized :
  bi_Deps ex_two_deps_devel = [ex_d0; ex_d1]
  ∧ bi_Deps (UnmarshalText zeroBuildInfo (MarshalText ex_two_deps_devel).1).1
    = [mkModule "example.com/d" "(devel)" "h1:abc" None; ex_d1]
  ∧ [mkModule "example.com/d" "(devel)" "h1:abc" None; ex_d1] ≠ [ex_d0; ex_d1].
Proof. split_and!; [vm_compute; reflexivity..|]. intros [=]. Qed.

Section DepLines.

(** A [dep] line that decodes has two or three columns, and they are the
    fields of the module it stands for. *)
Lemma dep_line_fields l st st' :
  doLine l st = (st', None) → isDepLine l = true →
  lineFields (columns depLine l) = Some (fields (moduleOfLine l)).
Proof.
  intros Hdo Hdep. rewrite (doLine_dep l st Hdep) in Hdo.
  injection Hdo as _ Herr. revert Herr. unfold moduleOfLine.
  change (columns modLine l) with (columns depLine l).
  by destruct (columns depLine l) as [|a [|b [|c [|e cs]]]].
Qed.

Lemma runLines_dep_fields ls : ∀ st st',
  runLines ls st = (st', None) →
  Some ∘ fields <$> bi_Deps (st_bi st')
  = (Some ∘ fields <$> bi_Deps (st_bi st))
    ++ ((lineFields ∘ columns depLine) <$> List.filter isDepLine ls).
Proof.
  induction ls as [|l ls IH]; intros st st'.
  - intros [= ->]. simpl. by rewrite List.app_nil_r.
  - change (l :: ls) with ([l] ++ ls). rewrite List.filter_app, fmap_app.
    simpl runLines.
    destruct (doLine l st) as [st1 [e|]] eqn:Hdo; [done|].
    intros Hrun. rewrite (IH _ _ Hrun). simpl st_bi.
    rewrite (list_fmap_compose fields Some (bi_Deps (st_bi st1))).
    rewrite (doLine_deps l st st1 Hdo), fmap_app, <-!list_fmap_compose.
    rewrite <-List.app_assoc. f_equal. f_equal. simpl.
    destruct (isDepLine l) eqn:Hdep; [|done]. csimpl.
    by rewrite (dep_line_fields l st st1 Hdo Hdep).
Qed.

Lemma devel_fixed v : devel v = v → negb (String.eqb v "") = true.
Proof. unfold devel. by destruct (String.eqb_spec v "") as [->|]. Qed.

Lemma canonMod_fixed m : canonMod m = m → exactMod m = true.
Proof.
  unfold canonMod, canonRepl, exactMod.
  destruct m as [p v s [[rp rv rs rr]|]]; simpl.
  - intros [= Hv <- Hrv _]. by rewrite (devel_fixed v), (devel_fixed rv).
  - intros [= Hv]. by rewrite (devel_fixed v).
Qed.

End DepLines.

(** C7 (amended): decoding appends one module per [dep] line, in the
    order of the lines and whether or not paths repeat: every [dep] line
    of a text that decodes has two or three columns, and the path,
    version and checksum of the dependencies are those columns, line by
    line (the checksum is empty for two columns).  For an encodable
    [BuildInfo] the dependencies decoded from its encoding are as many as
    its dependencies and in the same order, each with its path, with
    "(devel)" for an empty version, and with its checksum unless it is
    replaced; they are its dependencies unchanged exactly when each has
    its versions set and no checksum beside a replacement. *)
Theorem deps_order_preserved
    (bi x : BuildInfo) (ls : list string) (st : state) :
  (forallb oneLine ls = true → scan (unlines ls) = (st, None) →
   Some ∘ fields <$> bi_Deps (st_bi st)
   = (lineFields ∘ columns depLine) <$> List.filter isDepLine ls)
  ∧ (encodable x = true →
     bi_Deps (UnmarshalText bi (MarshalText x).1).1 = canonMod <$> bi_Deps x
     ∧ length (bi_Deps (UnmarshalText bi (MarshalText x).1).1)
       = length (bi_Deps x)
     ∧ ∀ i d, bi_Deps x !! i = Some d →
         fields <$> bi_Deps (UnmarshalText bi (MarshalText x).1).1 !! i
         = Some (Path d,
                 if String.eqb (Version d) "" then "(devel)" else Version d,
                 match Replace d with None => Sum d | Some _ => "" end))
  ∧ (encodable x = true →
     (bi_Deps (UnmarshalText bi (MarshalText x).1).1 = bi_Deps x
      ↔ forallb exactMod (bi_Deps x) = true)).
Proof.
  split_and!.
  - intros Hls Hscan. rewrite scan_unlines_only in Hscan by done.
    by rewrite (runLines_dep_fields ls initState st Hscan).
  - intros Henc. rewrite decode_encode by done. simpl.
    split_and!; [done|by rewrite length_fmap|].
    intros i d Hd. rewrite list_lookup_fmap, Hd. simpl.
    unfold canonMod, devel, fields. by destruct (Replace d).
  - intros Henc. rewrite decode_encode by done. simpl.
    unfold encodable in Henc. apply andb_prop in Henc as [_ Hdeps].
    induction (bi_Deps x) as [|d deps IH]; [done|]. csimpl in *.
    apply andb_prop in Hdeps as [Hd Hdeps]. split.
    + intros [= Hfix Hrest]. apply andb_true_intro. split.
      * by apply canonMod_fixed.
      * by apply IH.
    + intros [Hd' Hexact]%andb_prop.
      f_equal; [by apply canonMod_exact|by apply IH].
Qed.

Lemma deps_order_preserved_witness :
  Some ∘ fields <$> bi_Deps (scan (unlines [ex_dep_X; ex_mod_A; ex_dep_X])).1.(st_bi)
  = [Some ("X", "v2", "h1:x"); Some ("X", "v2", "h1:x")]
  ∧ bi_Deps (UnmarshalText zeroBuildInfo (MarshalText ex_two_deps).1).1
    = [mkModule "example.com/d" "v1.0.0" "h1:abc" None;
       mkModule "example.com/d" "v1.2.0" ""
         (Some (mkModule "example.com/fork" "v1.0.1" "h1:def" None))].
Proof.
  pose proof (deps_order_preserved zeroBuildInfo ex_two_deps
                [ex_dep_X; ex_mod_A; ex_dep_X]
                (scan (unlines [ex_dep_X; ex_mod_A; ex_dep_X])).1)
    as (Hlines & _ & Hdeps).
  split.
  - exact (Hlines eq_refl eq_refl).
  - exact (proj2 (Hdeps eq_refl) eq_refl).
Defined.

(** * Further properties of the codec *)

(** ** Errors *)

Section Errors.

Lemma runLines_error_line ls st st' e :
  runLines ls st = (st', Some e) →
  st_lineNum st ≤ st_lineNum st' ∧ st_lineNum st' < st_lineNum st + length ls.
Proof.
  revert st. induction ls as [|l ls IH]; intros st; [done|]. simpl.
  pose proof (doLine_lineNum l st) as Hl.
  destruct (doLine l st) as [st1 [e1|]]; simpl in Hl.
  - intros [= -> _]. lia.
  - intros [H1 H2]%IH. simpl in *. lia.
Qed.

Lemma length_linesOf data : length (linesOf data).1 = countByte "010" data.
Proof.
  induction data as [|c data IH]; [done|]. simpl.
  destruct (linesOf data) as [ls frag]. simpl in IH.
  destruct (Ascii.eqb c "010"); simpl; [by rewrite IH|].
  by destruct ls.
Qed.

Lemma ReadBuildInfo_framed pre p post :
  String.length pre = 16 → String.length post = 16 →
  ReadBuildInfo (pre +:+ p +:+ post)
  = match UnmarshalText zeroBuildInfo p with
    | (bi, None) => Some bi
    | (_, Some _) => None
    end.
Proof.
  intros Hpre Hpost. unfold ReadBuildInfo, bytes.slice.
  rewrite !str_length_app, Hpre, Hpost.
  replace (16 + (String.length p + 16) <? 32) with false
    by (symmetry; apply Nat.ltb_ge; lia).
  replace (bytes.drop 16 (pre +:+ p +:+ post)) with (p +:+ post)
    by (rewrite <-Hpre; symmetry; apply str_drop_exact).
  replace (16 + (String.length p + 16) - 16 - 16) with (String.length p) by lia.
  rewrite str_take_app. by destruct (UnmarshalText _ p) as [bi [e|]].
Qed.

End Errors.

(** X1: once a line fails, nothing after it is read: the decoded value
    and the error of a text of complete lines that fails are those of
    that text followed by any bytes. *)
Theorem error_stops_decoding
    (bi : BuildInfo) (ls : list string) (rest : string) (e : FormatError) :
  forallb oneLine ls = true →
  (UnmarshalText bi (unlines ls)).2 = Some e →
  UnmarshalText bi (unlines ls +:+ rest) = UnmarshalText bi (unlines ls).
Proof.
  intros Hls. rewrite !UnmarshalText_scan. simpl.
  rewrite scan_unlines_app, scan_unlines_only by done.
  by destruct (runLines ls initState) as [st [c|]].
Qed.

Lemma error_stops_decoding_witness :
  UnmarshalText zeroBuildInfo (unlines [ex_mod_A; ex_rep_B] +:+ (ex_dep_X +:+ NL))
  = (mkBuildInfo "" (mkModule "A" "v1" "" None) [],
     Some (mkFormatError 2 (ErrReplColumns 1))).
Proof.
  rewrite (error_stops_decoding zeroBuildInfo [ex_mod_A; ex_rep_B]
             (ex_dep_X +:+ NL) (mkFormatError 2 (ErrReplColumns 1))
             eq_refl eq_refl).
  reflexivity.
Defined.

(** X2: the line number of an error is the number of a line of the input:
    at least 1 and at most the number of newline bytes. *)
Theorem error_line_in_range
    (bi bi' : BuildInfo) (data : string) (e : FormatError) :
  UnmarshalText bi data = (bi', Some e) →
  1 ≤ err_line e ∧ err_line e ≤ countByte "010" data.
Proof.
  rewrite UnmarshalText_scan, scan_linesOf, <-length_linesOf.
  destruct (runLines (linesOf data).1 initState) as [st [c|]] eqn:Hrun; [|done].
  simpl. intros [= _ <-]. simpl.
  apply runLines_error_line in Hrun. simpl in Hrun. lia.
Qed.

Lemma error_line_in_range_witness :
  1 ≤ 2 ∧ 2 ≤ countByte "010" (unlines [ex_mod_A; ex_rep_B; ex_dep_X]).
Proof.
  exact (error_line_in_range zeroBuildInfo
           (mkBuildInfo "" (mkModule "A" "v1" "" None) [])
           (unlines [ex_mod_A; ex_rep_B; ex_dep_X])
           (mkFormatError 2 (ErrReplColumns 1)) eq_refl).
Defined.

(** X3: what the receiver holds when a line fails after lines that
    decode.  A [mod] line with a wrong column count leaves the zero module
    as main module, whatever main module was decoded before; a [dep] line
    with a wrong column count leaves a zero module appended to the
    dependencies; a failing [=>] line leaves the receiver as the lines
    before it made it. *)
Theorem receiver_after_error
    (bi : BuildInfo) (ls : list string) (l rest : string) (st : state) :
  forallb oneLine ls = true → oneLine l = true →
  scan (unlines ls) = (st, None) →
  (bytes.HasPrefix l modLine = true →
   length (columns modLine l) ≠ 2 → length (columns modLine l) ≠ 3 →
   (UnmarshalText bi (unlines ls +:+ l +:+ NL +:+ rest)).1
   = mkBuildInfo (bi_Path (st_bi st)) zeroModule (bi_Deps (st_bi st)))
  ∧ (bytes.HasPrefix l depLine = true →
     length (columns modLine l) ≠ 2 → length (columns modLine l) ≠ 3 →
     (UnmarshalText bi (unlines ls +:+ l +:+ NL +:+ rest)).1
     = mkBuildInfo (bi_Path (st_bi st)) (bi_Main (st_bi st))
         (bi_Deps (st_bi st) ++ [zeroModule]))
  ∧ (bytes.HasPrefix l repLine = true →
     length (columns repLine l) ≠ 3 ∨ st_last st = None →
     (UnmarshalText bi (unlines ls +:+ l +:+ NL +:+ rest)).1 = st_bi st).
Proof.
  intros Hls Hl Hscan. split_and!.
  - intros Hpre H2 H3.
    erewrite decode_line_error; [|done|done|exact Hscan|].
    2:{ rewrite (doLine_mod l st Hpre), readModuleLine_bad by done. done. }
    done.
  - intros Hpre H2 H3.
    erewrite decode_line_error; [|done|done|exact Hscan|].
    2:{ rewrite (doLine_dep l st Hpre).
        change (columns depLine l) with (columns modLine l).
        rewrite readModuleLine_bad by done. done. }
    simpl. by rewrite insert_app_r_alt, Nat.sub_diag by done.
  - intros Hpre Hbad.
    assert (∃ c, doLine l st = (st, Some c)) as [c Hdo].
    { rewrite (doLine_rep l st Hpre).
      destruct (negb (length (columns repLine l) =? 3)) eqn:Hcols; [by eauto|].
      destruct Hbad as [Hbad| ->]; [|by eauto].
      apply negb_false_iff, Nat.eqb_eq in Hcols. done. }
    by erewrite decode_line_error.
Qed.

Lemma receiver_after_error_witness :
  (UnmarshalText zeroBuildInfo
     (unlines [ex_mod_A; ex_dep_X] +:+ ex_mod_B_short +:+ NL +:+ "")).1
  = mkBuildInfo "" zeroModule [mkModule "X" "v2" "h1:x" None]
  ∧ (UnmarshalText zeroBuildInfo
       (unlines [ex_mod_A; ex_dep_X] +:+ ex_dep_short +:+ NL +:+ "")).1
    = mkBuildInfo "" (mkModule "A" "v1" "" None)
        ([mkModule "X" "v2" "h1:x" None] ++ [zeroModule]).
Proof.
  split.
  - exact (proj1 (receiver_after_error zeroBuildInfo [ex_mod_A; ex_dep_X]
                    ex_mod_B_short "" (scan (unlines [ex_mod_A; ex_dep_X])).1
                    eq_refl eq_refl eq_refl)
             eq_refl ltac:(vm_compute; lia) ltac:(vm_compute; lia)).
  - exact (proj1 (proj2 (receiver_after_error zeroBuildInfo [ex_mod_A; ex_dep_X]
                    ex_dep_short "" (scan (unlines [ex_mod_A; ex_dep_X])).1
                    eq_refl eq_refl eq_refl))
             eq_refl ltac:(vm_compute; lia) ltac:(vm_compute; lia)).
Defined.

(** ** The last [path] line and the last [mod] line *)

Section LastLines.




End LastLines.



(** ** Columns *)

Section Columns.

Lemma HasPrefix_one a s c :
  bytes.HasPrefix (String a s) (String c "") = Ascii.eqb a c.
Proof. unfold bytes.HasPrefix. by destruct (Ascii.eqb a c). Qed.

Lemma Index_one a s c :
  bytes.Index (String a s) (String c "")
  = if Ascii.eqb a c then Some 0 else S <$> bytes.Index s (String c "").
Proof.
  change (bytes.Index (String a s) (String c ""))
    with (if bytes.HasPrefix (String a s) (String c "") then Some 0
          else S <$> bytes.Index s (String c "")).
  by rewrite HasPrefix_one.
Qed.

Lemma drop_S n a s : bytes.drop (S n) (String a s) = bytes.drop n s.
Proof. reflexivity. Qed.

Lemma countByte_hasByte c s : countByte c s = 0 ↔ hasByte c s = false.
Proof.
  induction s as [|a s IH]; [done|]. simpl. by destruct (Ascii.eqb a c).
Qed.

Lemma countByte_length c s : countByte c s ≤ String.length s.
Proof.
  induction s as [|a s IH]; [done|]. simpl. destruct (Ascii.eqb a c); lia.
Qed.

Lemma countByte_app c s t : countByte c (s +:+ t) = countByte c s + countByte c t.
Proof.
  induction s as [|a s IH]; [done|]. rewrite str_app_cons. simpl.
  destruct (Ascii.eqb a c); lia.
Qed.

Lemma Index_None c s :
  bytes.Index s (String c "") = None → hasByte c s = false.
Proof.
  induction s as [|a s IH]; [done|]. rewrite Index_one. simpl.
  destruct (Ascii.eqb a c); [done|].
  destruct (bytes.Index s (String c "")); [done|]. auto.
Qed.

Lemma Index_Some c s m :
  bytes.Index s (String c "") = Some m →
  s = bytes.take m s +:+ String c (bytes.drop (m + 1) s)
  ∧ hasByte c (bytes.take m s) = false.
Proof.
  revert m. induction s as [|a s IH]; intros m; [done|]. rewrite Index_one.
  destruct (Ascii.eqb_spec a c) as [->|Hne].
  - intros [= <-]. split; reflexivity.
  - destruct (bytes.Index s (String c "")) as [m'|]; [|done].
    intros [= <-]. destruct (IH m' eq_refl) as [Hs Hfree].
    change (S m' + 1) with (S (m' + 1)). rewrite drop_S. simpl.
    rewrite str_app_cons, <-Hs. split; [done|].
    apply Ascii.eqb_neq in Hne. by rewrite Hne.
Qed.

(** The loop of [genSplit], with a bound that is not below the number of
    separators: the pieces joined by the separator give the string back,
    there is one more piece than separators, and no piece holds one. *)
Lemma genSplit_spec c n : ∀ s,
  countByte c s ≤ n →
  Join (bytes.genSplit n s (String c "")) (String c "") = s
  ∧ length (bytes.genSplit n s (String c "")) = S (countByte c s)
  ∧ Forall (λ x, hasByte c x = false) (bytes.genSplit n s (String c "")).
Proof.
  induction n as [|n IH]; intros s Hn.
  - assert (countByte c s = 0) as H0 by lia. simpl. rewrite H0.
    split_and!; [done..|]. apply Forall_singleton. by apply countByte_hasByte.
  - simpl. destruct (bytes.Index s (String c "")) as [m|] eqn:Hidx.
    + destruct (Index_Some c s m Hidx) as [Hs Hfree].
      change (String.length (String c "")) with 1.
      assert (countByte c s = S (countByte c (bytes.drop (m + 1) s))) as Hcount.
      { rewrite Hs at 1. rewrite countByte_app. simpl.
        rewrite Ascii.eqb_refl.
        apply countByte_hasByte in Hfree. lia. }
      destruct (IH (bytes.drop (m + 1) s)) as (HJ & HL & HF); [lia|].
      split_and!.
      * destruct (bytes.genSplit n (bytes.drop (m + 1) s) (String c ""))
          as [|x xs] eqn:Hg; [done|].
        change (Join (bytes.take m s :: x :: xs) (String c ""))
          with (bytes.take m s +:+ String c "" +:+ Join (x :: xs) (String c "")).
        rewrite HJ. rewrite str_app_cons, str_app_nil_l. by rewrite <-Hs.
      * simpl. by rewrite HL, Hcount.
      * by apply Forall_cons.
    + apply Index_None in Hidx.
      assert (countByte c s = 0) as -> by by apply countByte_hasByte.
      split_and!; [done..|]. by apply Forall_singleton.
Qed.

Lemma Split_spec s :
  Join (bytes.Split s tab) tab = s
  ∧ length (bytes.Split s tab) = S (countByte "009" s)
  ∧ Forall (λ x, hasByte "009" x = false) (bytes.Split s tab).
Proof. apply genSplit_spec, countByte_length. Qed.

End Columns.

(** X5: the columns of a line are the pieces between the tabs of what
    follows the prefix: joined by tabs they give it back, none holds a
    tab, and there is one more column than tabs; so [readModuleLine]
    accepts a [mod] or [dep] line exactly when one or two tabs follow the
    prefix. *)
Theorem columns_are_tab_separated (prefix l : string) :
  Join (columns prefix l) tab = bytes.drop (String.length prefix) l
  ∧ length (columns prefix l)
    = S (countByte "009" (bytes.drop (String.length prefix) l))
  ∧ Forall (λ c, hasByte "009" c = false) (columns prefix l)
  ∧ ((readModuleLine (columns prefix l)).2 = None
     ↔ countByte "009" (bytes.drop (String.length prefix) l) = 1
       ∨ countByte "009" (bytes.drop (String.length prefix) l) = 2).
Proof.
  unfold columns.
  destruct (Split_spec (bytes.drop (String.length prefix) l)) as (HJ & HL & HF).
  split_and!; [done..|].
  unfold readModuleLine. rewrite HL.
  destruct (countByte "009" (bytes.drop (String.length prefix) l))
    as [|[|[|k]]]; simpl; split; try done; try lia; intros [|]; lia.
Qed.

Lemma columns_are_tab_separated_witness :
  (readModuleLine (columns modLine ex_dep_X)).2 = None
  ∧ Join (columns modLine ex_dep_X) tab = "X" +:+ TAB +:+ "v2" +:+ TAB +:+ "h1:x".
Proof.
  pose proof (columns_are_tab_separated modLine ex_dep_X) as (HJ & _ & _ & Hacc).
  split; [|exact HJ]. apply Hacc. right. reflexivity.
Defined.

(** ** Lines that match no case *)

Section Ignored.

Lemma doLine_shift k l st :
  doLine l (shift k st) = (shift k (doLine l st).1, (doLine l st).2).
Proof.
  destruct st as [b last n]. unfold doLine, shift. simpl.
  destruct (bytes.HasPrefix l pathLine); [done|].
  destruct (bytes.HasPrefix l modLine); [by destruct (readModuleLine _)|].
  destruct (bytes.HasPrefix l depLine); [by destruct (readModuleLine _)|].
  destruct (bytes.HasPrefix l repLine); [|done].
  destruct (negb _); [done|]. by destruct last.
Qed.

Lemma nextLine_shift k st : nextLine (shift k st) = shift k (nextLine st).
Proof. unfold nextLine, shift. simpl. f_equal. lia. Qed.

Lemma runLines_shift k ls : ∀ st,
  runLines ls (shift k st) = (shift k (runLines ls st).1, (runLines ls st).2).
Proof.
  induction ls as [|l ls IH]; intros st; [done|].
  rewrite !runLines_cons, doLine_shift.
  destruct (doLine l st) as [st1 [e|]]; [done|]. simpl.
  by rewrite nextLine_shift, IH.
Qed.

Lemma doLine_ignored j st : ignoredLine j = true → doLine j st = (st, None).
Proof.
  unfold ignoredLine. intros [Hpath Hpass]%andb_prop.
  rewrite doLine_passive by done. by destruct (bytes.HasPrefix j pathLine).
Qed.

End Ignored.

(** X6: a line that matches no case of the [switch] can be dropped from
    the input: the decoded value is the same, and so is the error, whose
    line number is one higher with the line when the failing line comes
    after it. *)
Theorem ignored_line_is_skipped
    (bi : BuildInfo) (ls : list string) (j rest : string) :
  forallb oneLine ls = true → oneLine j = true → ignoredLine j = true →
  (UnmarshalText bi (unlines ls +:+ j +:+ NL +:+ rest)).1
  = (UnmarshalText bi (unlines ls +:+ rest)).1
  ∧ (UnmarshalText bi (unlines ls +:+ j +:+ NL +:+ rest)).2
    = laterLine (length ls) <$> (UnmarshalText bi (unlines ls +:+ rest)).2.
Proof.
  intros Hls Hj Hign. rewrite !UnmarshalText_scan. simpl.
  replace (unlines ls +:+ j +:+ NL +:+ rest)
    with (unlines (ls ++ [j]) +:+ rest)
    by (by rewrite unlines_app; simpl; rewrite !str_app_assoc).
  rewrite !scan_unlines_app by (by rewrite ?forallb_app; simpl; rewrite ?Hls, ?Hj).
  rewrite runLines_app.
  destruct (runLines ls initState) as [st [c|]] eqn:Hrun.
  - simpl. split; [done|]. unfold laterLine. simpl.
    apply runLines_error_line in Hrun. simpl in Hrun.
    by replace (st_lineNum st <=? length ls) with true
      by (symmetry; apply Nat.leb_le; lia).
  - apply runLines_lineNum in Hrun as Hnum. simpl in Hnum.
    rewrite runLines_cons, doLine_ignored by done. simpl runLines.
    replace (nextLine st) with (shift 1 st) by (by destruct st).
    rewrite runLines_shift.
    destruct (runLines (linesOf rest).1 st) as [st2 [c|]] eqn:Hrest; simpl;
      [|done].
    split; [done|]. unfold laterLine. simpl.
    apply runLines_error_line in Hrest.
    by replace (st_lineNum st2 <=? length ls) with false
      by (symmetry; apply Nat.leb_gt; lia).
Qed.

Lemma ignored_line_is_skipped_witness :
  (UnmarshalText zeroBuildInfo
     (unlines [ex_mod_A] +:+ ex_build_line +:+ NL +:+ unlines [ex_rep_A; ex_rep_B])).1
  = mkBuildInfo "" (mkModule "A" "v1" "" (Some (mkModule "A" "v1" "sum" None))) []
  ∧ (UnmarshalText zeroBuildInfo
       (unlines [ex_mod_A] +:+ ex_build_line +:+ NL +:+ unlines [ex_rep_A; ex_rep_B])).2
    = Some (mkFormatError 4 (ErrReplColumns 1)).
Proof.
  destruct (ignored_line_is_skipped zeroBuildInfo [ex_mod_A] ex_build_line
              (unlines [ex_rep_A; ex_rep_B]) eq_refl eq_refl eq_refl) as [Hv He].
  split; [rewrite Hv|rewrite He]; reflexivity.
Defined.

(** ** The values the decoder builds *)

Section Columnar.

Lemma hasByte_Join_piece x sep cols :
  hasByte x (Join cols sep) = false → Forall (λ c, hasByte x c = false) cols.
Proof.
  induction cols as [|a [|b cols] IH]; [done|..].
  - intros H. by apply Forall_singleton.
  - change (Join (a :: b :: cols) sep) with (a +:+ sep +:+ Join (b :: cols) sep).
    rewrite !hasByte_app. intros [Ha [_ Hrest]%orb_false_elim]%orb_false_elim.
    apply Forall_cons. split; [done|]. by apply IH.
Qed.

Lemma hasByte_drop x n : ∀ s, hasByte x s = false → hasByte x (bytes.drop n s) = false.
Proof.
  induction n as [|n IH]; intros s; [by rewrite str_drop_0|].
  destruct s as [|a s]; [done|]. rewrite drop_S. simpl.
  destruct (Ascii.eqb a x); [done|]. apply IH.
Qed.

(** The columns of a line without newline fit in one column each. *)
Lemma oneColumn_columns prefix l :
  oneLine l = true → Forall (λ c, oneColumn c = true) (columns prefix l).
Proof.
  intros Hl%oneLine_true.
  destruct (Split_spec (bytes.drop (String.length prefix) l)) as (HJ & _ & HF).
  assert (Forall (λ c, hasByte "010" c = false) (columns prefix l)) as HN.
  { apply (hasByte_Join_piece _ tab). unfold columns. rewrite HJ.
    by apply hasByte_drop. }
  unfold columns in *. rewrite Forall_forall in HF, HN. apply Forall_forall.
  intros c Hc. unfold oneColumn. by rewrite (HF c Hc), (HN c Hc).
Qed.

Lemma oneColumn_col elem i :
  Forall (λ c, oneColumn c = true) elem → oneColumn (col elem i) = true.
Proof.
  intros HF. unfold col. destruct (nth_in_or_default i elem "") as [Hin| ->];
    [|done].
  rewrite Forall_forall in HF. apply HF. by apply list_elem_of_In.
Qed.

Lemma encodableMod_readModuleLine elem :
  Forall (λ c, oneColumn c = true) elem →
  encodableMod (readModuleLine elem).1 = true.
Proof.
  intros HF. unfold readModuleLine. destruct (_ && _); [done|].
  unfold encodableMod. simpl. rewrite !oneColumn_col by done. simpl.
  destruct (length elem =? 3); [by apply oneColumn_col|done].
Qed.

Lemma encodableMod_setReplace r m :
  encodableRepl r = true → encodableMod m = true →
  encodableMod (setReplace r m) = true.
Proof.
  intros Hr (Hp & Hv & _)%encodableMod_inv. unfold encodableMod. simpl.
  by rewrite Hp, Hv, Hr.
Qed.

Lemma columnar_inv bi :
  columnar bi = true ↔
  oneLine (bi_Path bi) = true ∧ encodableMod (bi_Main bi) = true
  ∧ Forall (λ m, encodableMod m = true) (bi_Deps bi).
Proof.
  unfold columnar. rewrite !andb_true_iff, forallb_forall, Forall_forall.
  split.
  - intros [[Hp Hm] Hd]. split_and!; [done..|].
    intros m Hin. by apply Hd, list_elem_of_In.
  - intros (Hp & Hm & Hd). split_and!; [done..|].
    intros m Hin. by apply Hd, list_elem_of_In.
Qed.

Lemma doLine_columnar l st :
  oneLine l = true → columnar (st_bi st) = true →
  columnar (st_bi (doLine l st).1) = true.
Proof.
  intros Hl (Hpath & Hmain & Hdeps)%columnar_inv.
  pose proof (oneColumn_columns modLine l Hl) as Hmodcols.
  pose proof (oneColumn_columns repLine l Hl) as Hrepcols.
  switch_cases l st; apply columnar_inv; simpl.
  - split_and!; [done| |done]. by apply encodableMod_readModuleLine.
  - split_and!; [done..|]. change (columns depLine l) with (columns modLine l).
    rewrite insert_app_r_alt, Nat.sub_diag by done. simpl.
    apply Forall_app. split; [done|]. apply Forall_singleton.
    by apply encodableMod_readModuleLine.
  - destruct (negb _); [done|].
    assert (encodableRepl (replacementOfLine l) = true) as Hr.
    { unfold encodableRepl, replacementOfLine. simpl.
      by rewrite !oneColumn_col. }
    destruct (st_last st) as [[|i]|]; simpl; [..|done].
    + split_and!; [done| |done]. by apply encodableMod_setReplace.
    + split_and!; [done..|]. apply Forall_alter; [done|].
      intros m _ Hm. by apply encodableMod_setReplace.
  - destruct (bytes.HasPrefix l pathLine); [|done]. simpl.
    split_and!; [|done..]. unfold oneLine.
    by rewrite hasByte_drop by by apply oneLine_true.
Qed.

Lemma runLines_columnar ls : ∀ st,
  forallb oneLine ls = true → columnar (st_bi st) = true →
  columnar (st_bi (runLines ls st).1) = true.
Proof.
  induction ls as [|l ls IH]; intros st Hls Hst; [done|].
  simpl in Hls. apply andb_prop in Hls as [Hl Hls]. rewrite runLines_cons.
  pose proof (doLine_columnar l st Hl Hst) as H1.
  destruct (doLine l st) as [st1 [e|]]; [done|]. by apply IH.
Qed.

Lemma UnmarshalText_columnar bi data : columnar (UnmarshalText bi data).1 = true.
Proof.
  rewrite UnmarshalText_scan, scan_linesOf. simpl.
  apply runLines_columnar; [|done]. apply linesOf_spec.
Qed.

Lemma columnar_encodable bi : columnar bi = true → encodable bi = true.
Proof.
  unfold columnar, encodable.
  intros [[-> ->]%andb_prop ->]%andb_prop. by rewrite orb_true_r.
Qed.

End Columnar.

Section Clean.

Lemma cleanMod_readModuleLine elem :
  Forall (λ c, oneColumn c = true) elem →
  cleanMod (readModuleLine elem).1 = true.
Proof.
  intros HF. unfold readModuleLine. destruct (_ && _); [done|].
  unfold cleanMod. simpl. rewrite !oneColumn_col by done. simpl.
  rewrite andb_true_r. destruct (length elem =? 3); [by apply oneColumn_col|done].
Qed.

Lemma cleanMod_inv m :
  cleanMod m = true →
  oneColumn (Path m) = true ∧ oneColumn (Version m) = true
  ∧ oneColumn (Sum m) = true.
Proof.
  unfold cleanMod. by intros [[[??]%andb_prop ?]%andb_prop _]%andb_prop.
Qed.

Lemma cleanMod_setReplace elem m :
  Forall (λ c, oneColumn c = true) elem → cleanMod m = true →
  cleanMod (setReplace (mkModule (col elem 0) (col elem 1) (col elem 2) None) m)
  = true.
Proof.
  intros HF (Hp & Hv & Hs)%cleanMod_inv. unfold cleanMod. simpl.
  by rewrite Hp, Hv, Hs, !oneColumn_col.
Qed.

Lemma clean_inv bi :
  clean bi = true ↔
  oneLine (bi_Path bi) = true ∧ cleanMod (bi_Main bi) = true
  ∧ Forall (λ m, cleanMod m = true) (bi_Deps bi).
Proof.
  unfold clean. rewrite !andb_true_iff, forallb_forall, Forall_forall.
  split.
  - intros [[Hp Hm] Hd]. split_and!; [done..|].
    intros m Hin. by apply Hd, list_elem_of_In.
  - intros (Hp & Hm & Hd). split_and!; [done..|].
    intros m Hin. by apply Hd, list_elem_of_In.
Qed.

Lemma doLine_clean l st :
  oneLine l = true → clean (st_bi st) = true →
  clean (st_bi (doLine l st).1) = true.
Proof.
  intros Hl (Hpath & Hmain & Hdeps)%clean_inv.
  pose proof (oneColumn_columns modLine l Hl) as Hmodcols.
  pose proof (oneColumn_columns repLine l Hl) as Hrepcols.
  switch_cases l st; apply clean_inv; simpl.
  - split_and!; [done| |done]. by apply cleanMod_readModuleLine.
  - split_and!; [done..|]. change (columns depLine l) with (columns modLine l).
    rewrite insert_app_r_alt, Nat.sub_diag by done. simpl.
    apply Forall_app. split; [done|]. apply Forall_singleton.
    by apply cleanMod_readModuleLine.
  - destruct (negb _); [done|].
    destruct (st_last st) as [[|i]|]; simpl; [..|done]; unfold replacementOfLine.
    + split_and!; [done| |done]. by apply cleanMod_setReplace.
    + split_and!; [done..|]. apply Forall_alter; [done|].
      intros m _ Hm. by apply cleanMod_setReplace.
  - destruct (bytes.HasPrefix l pathLine); [|done]. simpl.
    split_and!; [|done..]. unfold oneLine.
    by rewrite hasByte_drop by by apply oneLine_true.
Qed.

Lemma runLines_clean ls : ∀ st,
  forallb oneLine ls = true → clean (st_bi st) = true →
  clean (st_bi (runLines ls st).1) = true.
Proof.
  induction ls as [|l ls IH]; intros st Hls Hst; [done|].
  simpl in Hls. apply andb_prop in Hls as [Hl Hls]. rewrite runLines_cons.
  pose proof (doLine_clean l st Hl Hst) as H1.
  destruct (doLine l st) as [st1 [e|]]; [done|]. by apply IH.
Qed.

Lemma UnmarshalText_clean bi data : clean (UnmarshalText bi data).1 = true.
Proof.
  rewrite UnmarshalText_scan, scan_linesOf. simpl.
  apply runLines_clean; [|done]. apply linesOf_spec.
Qed.

End Clean.

(** X7: whatever the input, and whether or not decoding fails, the value
    in the receiver is clean: no newline in its main path; no tab or
    newline in the path, version or checksum of the main module, of a
    dependency or of a replacement; no replacement of a replacement.  It
    is encodable, so its encoding decodes without error, to its canonical
    form. *)
Theorem decoded_value_is_encodable (bi : BuildInfo) (data : string) :
  clean (UnmarshalText bi data).1 = true
  ∧ encodable (UnmarshalText bi data).1 = true
  ∧ UnmarshalText bi (MarshalText (UnmarshalText bi data).1).1
    = (canon (UnmarshalText bi data).1, None).
Proof.
  assert (encodable (UnmarshalText bi data).1 = true) as Henc
    by apply columnar_encodable, UnmarshalText_columnar.
  split_and!; [apply UnmarshalText_clean|done|]. by apply decode_encode.
Qed.

(** ** Encodings *)

Section Encodings.

Lemma modLines_canonMod word m :
  encodableMod m = true → modLines word (canonMod m) = modLines word m.
Proof.
  intros (_ & _ & Hr)%encodableMod_inv.
  destruct m as [p v s [[rp rv rs rr]|]]; simpl in *.
  - destruct Hr as (_ & _ & _ & ->). simpl. by rewrite !devel_devel.
  - by rewrite devel_devel.
Qed.

Lemma Path_canonMod m : Path (canonMod m) = Path m.
Proof. unfold canonMod. by destruct (Replace m). Qed.

Lemma encLines_canon x : encodable x = true → encLines (canon x) = encLines x.
Proof.
  unfold encodable, encLines, canon.
  intros [[_ Hmain]%andb_prop Hdeps]%andb_prop.
  destruct x as [path main deps]. simpl in *. f_equal. f_equal.
  - destruct (String.eqb (Path main) "") eqn:Hpath; [done|]. simpl in *.
    rewrite Path_canonMod, Hpath. simpl. by apply modLines_canonMod.
  - induction deps as [|d deps IH]; [done|]. csimpl in *.
    apply andb_prop in Hdeps as [Hd Hdeps].
    by rewrite modLines_canonMod, IH.
Qed.

Lemma MarshalText_canon x : encodable x = true → MarshalText (canon x) = MarshalText x.
Proof. intros Henc. by rewrite !MarshalText_lines, encLines_canon. Qed.

Lemma unlines_nil ls : unlines ls = "" → ls = [].
Proof.
  destruct ls as [|l ls]; [done|]. simpl. intros H.
  apply (f_equal String.length) in H.
  rewrite !str_length_app in H. simpl in H. lia.
Qed.

Lemma unlines_ends ls : ls ≠ [] → ∃ s, unlines ls = s +:+ NL.
Proof.
  destruct ls as [|l ls _] using rev_ind; [done|]. intros _.
  exists (unlines ls +:+ l). rewrite unlines_app. simpl.
  by rewrite str_app_nil_r, !str_app_assoc.
Qed.

Lemma modLines_not_nil word m : modLines word m ≠ [].
Proof. by destruct m as [p v s [r|]]. Qed.

End Encodings.

(** X8: encoding what was decoded from an encoding gives the same bytes:
    for an encodable value, [MarshalText] of the decoded value is the
    encoding it was decoded from, also when the decoded value differs
    from the encoded one. *)
Theorem reencoding_is_stable (bi x : BuildInfo) :
  encodable x = true →
  MarshalText (UnmarshalText bi (MarshalText x).1).1 = MarshalText x.
Proof.
  intros Henc. rewrite decode_encode by done. simpl.
  by apply MarshalText_canon.
Qed.

Lemma reencoding_is_stable_witness :
  (UnmarshalText zeroBuildInfo (MarshalText ex_devel).1).1 ≠ ex_devel
  ∧ MarshalText (UnmarshalText zeroBuildInfo (MarshalText ex_devel).1).1
    = MarshalText ex_devel.
Proof.
  split; [by intros [=]|].
  exact (reencoding_is_stable zeroBuildInfo ex_devel eq_refl).
Defined.

(** X9: [MarshalText] writes nothing exactly when the main path is empty,
    the main module has no path and there is no dependency, whatever else
    the main module holds; what it writes ends with a newline. *)
Theorem encoding_empty_iff (x : BuildInfo) :
  ((MarshalText x).1 = ""
   ↔ bi_Path x = "" ∧ Path (bi_Main x) = "" ∧ bi_Deps x = [])
  ∧ ((MarshalText x).1 = "" ∨ ∃ s, (MarshalText x).1 = s +:+ NL).
Proof.
  rewrite MarshalText_lines. simpl. unfold encLines. split.
  - split.
    + intros H%unlines_nil.
      apply app_eq_nil in H as [Hpath [Hmain Hdeps]%app_eq_nil].
      split_and!.
      * destruct (String.eqb_spec (bi_Path x) ""); done.
      * destruct (String.eqb_spec (Path (bi_Main x)) ""); [done|].
        simpl in Hmain. by apply modLines_not_nil in Hmain.
      * destruct (bi_Deps x) as [|d deps]; [done|]. simpl in Hdeps.
        apply app_eq_nil in Hdeps as [Hd _]. by apply modLines_not_nil in Hd.
    + intros (-> & -> & ->). done.
  - match goal with |- unlines ?L = _ ∨ _ => destruct L as [|l ls] eqn:HL end;
      [by left|].
    right. by apply unlines_ends.
Qed.

Lemma encoding_empty_iff_witness :
  (MarshalText (mkBuildInfo "" (mkModule "" "v1.0.0" "h1:abc" (Some ex_fork)) [])).1 = "".
Proof.
  apply (proj1 (encoding_empty_iff
                  (mkBuildInfo "" (mkModule "" "v1.0.0" "h1:abc" (Some ex_fork)) []))).
  split_and!; reflexivity.
Defined.

(** X10: two encodable values have the same encoding exactly when they
    have the same canonical form; so the encoding tells apart any two
    values that it stores as they are. *)
Theorem same_encoding_iff_same_canon (x y : BuildInfo) :
  encodable x = true → encodable y = true →
  ((MarshalText x).1 = (MarshalText y).1 ↔ canon x = canon y)
  ∧ (exact x = true → exact y = true →
     (MarshalText x).1 = (MarshalText y).1 → x = y).
Proof.
  intros Hx Hy.
  assert ((MarshalText x).1 = (MarshalText y).1 → canon x = canon y) as Hinj.
  { intros Heq.
    pose proof (decode_encode zeroBuildInfo x Hx) as Hdx.
    pose proof (decode_encode zeroBuildInfo y Hy) as Hdy.
    rewrite Heq, Hdy in Hdx. congruence. }
  split; [split; [done|]|].
  - intros Heq. by rewrite <-(MarshalText_canon x), <-(MarshalText_canon y), Heq.
  - intros Hex Hey Heq%Hinj.
    by rewrite (canon_exact x), (canon_exact y) in Heq.
Qed.

Lemma same_encoding_iff_same_canon_witness :
  ex_devel ≠ canon ex_devel
  ∧ (MarshalText ex_devel).1 = (MarshalText (canon ex_devel)).1.
Proof.
  split; [by intros [=]|].
  apply (proj1 (same_encoding_iff_same_canon ex_devel (canon ex_devel)
                  eq_refl eq_refl)).
  reflexivity.
Defined.

(** ** The embedded blob *)

(** X11: for a blob made of 16 framing bytes, the encoding of an encodable
    value and 16 framing bytes, [ReadBuildInfo] returns the canonical form
    of the value, and the value itself when the encoding stores it as it
    is. *)
Theorem ReadBuildInfo_of_encoding (pre post : string) (x : BuildInfo) :
  String.length pre = 16 → String.length post = 16 →
  encodable x = true →
  ReadBuildInfo (pre +:+ (MarshalText x).1 +:+ post) = Some (canon x)
  ∧ (exact x = true →
     ReadBuildInfo (pre +:+ (MarshalText x).1 +:+ post) = Some x).
Proof.
  intros Hpre Hpost Henc.
  rewrite ReadBuildInfo_framed, decode_encode by done.
  split; [done|]. intros Hexact. by rewrite canon_exact.
Qed.

Lemma ReadBuildInfo_of_encoding_witness :
  ReadBuildInfo (ex_frame +:+ (MarshalText ex_full).1 +:+ ex_frame) = Some ex_full.
Proof.
  exact (proj2 (ReadBuildInfo_of_encoding ex_frame ex_frame ex_full
                  eq_refl eq_refl eq_refl) eq_refl).
Defined.

(** X12: a value [ReadBuildInfo] returns comes from a blob of at least 32
    bytes whose bytes between the first 16 and the last 16 decode to it
    without error; its replacements are not replaced and it is
    encodable. *)
Theorem ReadBuildInfo_result (d : string) (bi : BuildInfo) :
  ReadBuildInfo d = Some bi →
  32 ≤ String.length d
  ∧ UnmarshalText zeroBuildInfo (bytes.slice 16 (String.length d - 16) d)
    = (bi, None)
  ∧ flat bi ∧ encodable bi = true.
Proof.
  unfold ReadBuildInfo.
  destruct (String.length d <? 32) eqn:Hlen; [done|].
  apply Nat.ltb_ge in Hlen.
  pose proof (UnmarshalText_flat zeroBuildInfo
                (bytes.slice 16 (String.length d - 16) d)) as Hflat.
  pose proof (UnmarshalText_columnar zeroBuildInfo
                (bytes.slice 16 (String.length d - 16) d)) as Hcol.
  destruct (UnmarshalText zeroBuildInfo _) as [bi' [e|]]; [done|].
  intros [= <-]. split_and!; [done..|]. by apply columnar_encodable.
Qed.

Lemma ReadBuildInfo_result_witness :
  32 ≤ String.length (ex_frame +:+ unlines [ex_mod_A; ex_rep_A] +:+ ex_frame)
  ∧ UnmarshalText zeroBuildInfo
      (bytes.slice 16
         (String.length (ex_frame +:+ unlines [ex_mod_A; ex_rep_A] +:+ ex_frame) - 16)
         (ex_frame +:+ unlines [ex_mod_A; ex_rep_A] +:+ ex_frame))
    = (mkBuildInfo "" (mkModule "A" "v1" "" (Some (mkModule "A" "v1" "sum" None))) [],
       None)
  ∧ flat (mkBuildInfo "" (mkModule "A" "v1" "" (Some (mkModule "A" "v1" "sum" None))) [])
  ∧ encodable
      (mkBuildInfo "" (mkModule "A" "v1" "" (Some (mkModule "A" "v1" "sum" None))) [])
    = true.
Proof.
  exact (ReadBuildInfo_result
           (ex_frame +:+ unlines [ex_mod_A; ex_rep_A] +:+ ex_frame)
           (mkBuildInfo "" (mkModule "A" "v1" "" (Some (mkModule "A" "v1" "sum" None))) [])
           eq_refl).
Defined.

(** X13: the encoding of a value whose dependencies are two lists one
    after the other is the encoding of the value with the first list
    followed by the lines of the second list, which are the encoding of
    a value with nothing but the second list. *)
Theorem encoding_of_more_deps (p : string) (m : Module_) (ds1 ds2 : list Module_) :
  (MarshalText (mkBuildInfo p m (ds1 ++ ds2))).1
  = (MarshalText (mkBuildInfo p m ds1)).1
    +:+ (MarshalText (mkBuildInfo "" zeroModule ds2)).1.
Proof.
  rewrite !MarshalText_lines. unfold encLines. simpl.
  rewrite flat_map_app, !unlines_app. by rewrite !str_app_assoc.
Qed.
